(** * Document ingestion pipeline of the chat application

    A shallow embedding of [src/document/document_processor.py] and
    [src/document/processor_config.py], and the properties of the
    document-extraction pipeline checked against it.

    Conventions of the embedding:
    - a Python [str] is a list of Unicode code points ([N]); a [bytes]
      object is a list of [Byte.byte];
    - a Python [int] is a [Z]; [len] is [Z.of_nat (length _)];
    - a Python [set] of strings is a [gset], a [dict] that is only looked
      up is a [gmap], a [dict] that is iterated is an insertion-ordered
      association list;
    - an [async def] whose body talks to the Ollama service is a
      computation in the monad [M]: it threads the chronological list of
      service calls made so far and ends in a returned value or a raised
      exception.  [await] is sequencing;
    - an exception is an instance of [Exception], which is what the
      [except Exception] clauses of the source catch; cancellation and
      interpreter exit are outside the embedding;
    - calls to [self.logger] are not modelled: they neither fail nor
      influence any returned value. *)

From Stdlib Require Import ZArith NArith QArith List String Ascii Bool Lia.
From Stdlib.Strings Require Import Byte.
From Stdlib Require Import DecimalString.
From stdpp Require Import gmap.

Local Open Scope Z_scope.
Local Open Scope list_scope.

(** ** Python strings and bytes *)

Module Py.

Abbreviation str := (list N).
Abbreviation bytes := (list byte).

(** [utf8_run on_error bs] reads [bs] as UTF-8.  With [on_error = None] it
    is the strict decoder ([None] stands for [UnicodeDecodeError]); with
    [on_error = Some r] every maximal ill-formed subsequence is replaced by
    [r], which is what [errors='replace'] does with [r = U+FFFD]. *)
Definition in_range (lo hi b : N) : bool := ((lo <=? b) && (b <=? hi))%N.

Definition cont (b : N) : bool := in_range 0x80 0xBF b.

Definition payload (b : N) : N := N.land b 0x3F.

Definition second_lo (b0 : N) : N :=
  (if b0 =? 0xE0 then 0xA0 else if b0 =? 0xF0 then 0x90 else 0x80)%N.

Definition second_hi (b0 : N) : N :=
  (if b0 =? 0xED then 0x9F else if b0 =? 0xF4 then 0x8F else 0xBF)%N.

Definition on_bad (on_error : option N) (rest : option (list N)) : option (list N) :=
  match on_error with
  | None => None
  | Some r => option_map (cons r) rest
  end.

Fixpoint utf8_run (on_error : option N) (bs : list N) : option (list N) :=
  match bs with
  | [] => Some []
  | b0 :: r0 =>
    if (b0 <? 0x80)%N then option_map (cons b0) (utf8_run on_error r0)
    else if in_range 0xC2 0xDF b0 then
      match r0 with
      | b1 :: r1 =>
        if cont b1
        then option_map (cons (N.land b0 0x1F * 64 + payload b1)%N) (utf8_run on_error r1)
        else on_bad on_error (utf8_run on_error r0)
      | [] => on_bad on_error (utf8_run on_error r0)
      end
    else if in_range 0xE0 0xEF b0 then
      match r0 with
      | b1 :: r1 =>
        if in_range (second_lo b0) (second_hi b0) b1 then
          match r1 with
          | b2 :: r2 =>
            if cont b2
            then option_map
                   (cons (N.land b0 0x0F * 4096 + payload b1 * 64 + payload b2)%N)
                   (utf8_run on_error r2)
            else on_bad on_error (utf8_run on_error r1)
          | [] => on_bad on_error (utf8_run on_error r1)
          end
        else on_bad on_error (utf8_run on_error r0)
      | [] => on_bad on_error (utf8_run on_error r0)
      end
    else if in_range 0xF0 0xF4 b0 then
      match r0 with
      | b1 :: r1 =>
        if in_range (second_lo b0) (second_hi b0) b1 then
          match r1 with
          | b2 :: r2 =>
            if cont b2 then
              match r2 with
              | b3 :: r3 =>
                if cont b3
                then option_map
                       (cons (N.land b0 0x07 * 262144 + payload b1 * 4096
                              + payload b2 * 64 + payload b3)%N)
                       (utf8_run on_error r3)
                else on_bad on_error (utf8_run on_error r2)
              | [] => on_bad on_error (utf8_run on_error r2)
              end
            else on_bad on_error (utf8_run on_error r1)
          | [] => on_bad on_error (utf8_run on_error r1)
          end
        else on_bad on_error (utf8_run on_error r0)
      | [] => on_bad on_error (utf8_run on_error r0)
      end
    else on_bad on_error (utf8_run on_error r0)
  end.

Definition byte_values (b : list byte) : list N := List.map Byte.to_N b.

Definition utf8_strict (b : list byte) : option (list N) :=
  utf8_run None (byte_values b).

Definition utf8_replace (b : list byte) : list N :=
  match utf8_run (Some 0xFFFD%N) (byte_values b) with
  | Some s => s
  | None => []
  end.

(** A string literal of the source file: the program text is UTF-8. *)
Definition lit (s : string) : list N :=
  match utf8_strict (list_byte_of_string s) with
  | Some cps => cps
  | None => []
  end.

(** [b'...'] literals. *)
Definition blit (s : string) : list byte := list_byte_of_string s.

(** Equality of strings, [==]. *)
Fixpoint str_eqb (a b : list N) : bool :=
  match a, b with
  | [], [] => true
  | x :: a', y :: b' => (x =? y)%N && str_eqb a' b'
  | _, _ => false
  end.

(** Truthiness of a sequence: [not s] is [true] exactly on the empty one. *)
Definition py_not {A : Type} (s : list A) : bool :=
  match s with
  | [] => true
  | _ :: _ => false
  end.

(** [str.isspace] on one code point (the table of CPython's
    [_PyUnicode_IsWhitespace]). *)
Definition isspace (c : N) : bool :=
  (in_range 0x09 0x0D c || in_range 0x1C 0x20 c || (c =? 0x85) || (c =? 0xA0)
   || (c =? 0x1680) || in_range 0x2000 0x200A c || (c =? 0x2028) || (c =? 0x2029)
   || (c =? 0x202F) || (c =? 0x205F) || (c =? 0x3000))%N.

Fixpoint lstrip (s : list N) : list N :=
  match s with
  | [] => []
  | c :: s' => if isspace c then lstrip s' else s
  end.

Definition rstrip (s : list N) : list N := rev (lstrip (rev s)).

(** [s.strip()] *)
Definition strip (s : list N) : list N := rstrip (lstrip s).

(** [s[:n]], for any integer [n]: a negative [n] counts from the end. *)
Definition slice_to {A : Type} (n : Z) (s : list A) : list A :=
  if 0 <=? n then firstn (Z.to_nat n) s
  else firstn (Z.to_nat (Z.of_nat (length s) + n)) s.

(** [s.startswith(p)] *)
Fixpoint startswith (p s : list N) : bool :=
  match p, s with
  | [], _ => true
  | x :: p', y :: s' => (x =? y)%N && startswith p' s'
  | _ :: _, [] => false
  end.

(** [p in s] *)
Fixpoint contains (p s : list N) : bool :=
  startswith p s ||
  match s with
  | [] => false
  | _ :: s' => contains p s'
  end.

(** [sep.join(parts)] *)
Fixpoint join (sep : list N) (parts : list (list N)) : list N :=
  match parts with
  | [] => []
  | [p] => p
  | p :: rest => p ++ sep ++ join sep rest
  end.

(** [str(n)] for an integer, as in an f-string. *)
Definition str_of_int (n : Z) : list N :=
  lit (NilZero.string_of_int (Z.to_int n)).

(** [len(s)] *)
Definition len {A : Type} (s : list A) : Z := Z.of_nat (length s).

End Py.

(** [base64.b64encode]: standard alphabet, [=] padding. *)
Module Base64.

Definition byte_of (n : N) : byte :=
  match Byte.of_N n with
  | Some b => b
  | None => x00
  end.

Definition sym (i : N) : byte :=
  (if i <? 26 then byte_of (65 + i)
   else if i <? 52 then byte_of (97 + (i - 26))
   else if i <? 62 then byte_of (48 + (i - 52))
   else if i =? 62 then byte_of 43
   else byte_of 47)%N.

Definition pad : byte := byte_of 61.

Fixpoint b64encode (bs : list byte) : list byte :=
  match bs with
  | [] => []
  | [a] =>
    let n := (Byte.to_N a * 65536)%N in
    [sym (n / 262144); sym ((n / 4096) mod 64); pad; pad]%N
  | [a; b] =>
    let n := (Byte.to_N a * 65536 + Byte.to_N b * 256)%N in
    [sym (n / 262144); sym ((n / 4096) mod 64); sym ((n / 64) mod 64); pad]%N
  | a :: b :: c :: rest =>
    let n := (Byte.to_N a * 65536 + Byte.to_N b * 256 + Byte.to_N c)%N in
    [sym (n / 262144); sym ((n / 4096) mod 64); sym ((n / 64) mod 64); sym (n mod 64)]%N
      ++ b64encode rest
  end.

End Base64.

(** ** Exceptions, outcomes and call binding *)

(** An exception object: its class and [str(e)]. *)
Record exn := Exn { exn_class : string; exn_str : list N }.

Definition ValueError (msg : list N) : exn := Exn "ValueError" msg.
Definition TypeError (msg : list N) : exn := Exn "TypeError" msg.

(** How a call ends: it returns a value or raises. *)
Inductive outcome (A : Type) : Type :=
| Return (a : A)
| Raise (e : exn).
Arguments Return {A} a.
Arguments Raise {A} e.

Definition returned {A : Type} (o : outcome A) : Prop := exists a, o = Return a.

Module Call.

Definition quoted (name : string) : list N := Py.lit "'" ++ Py.lit name ++ Py.lit "'".

Fixpoint name_list_tail (names : list string) : list N :=
  match names with
  | [] => []
  | [a] => Py.lit "and " ++ quoted a
  | a :: rest => quoted a ++ Py.lit ", " ++ name_list_tail rest
  end.

Definition name_list (names : list string) : list N :=
  match names with
  | [] => []
  | [a] => quoted a
  | [a; b] => quoted a ++ Py.lit " and " ++ quoted b
  | a :: rest => quoted a ++ Py.lit ", " ++ name_list_tail rest
  end.

Definition plural (n : nat) : list N := if Nat.eqb n 1 then [] else Py.lit "s".

(** Binding the positional arguments of [self.method(...)] to the
    parameters the method declares after [self], none of which has a
    default.  Python binds when the call is made, for an [async def] too:
    a mismatch raises [TypeError] at the call, before any coroutine
    exists.  The messages are CPython's (3.10 and later). *)
Definition bind_positional (qualname : string) (params : list string) (given : nat)
  : option exn :=
  let declared := length params in
  if Nat.ltb given declared then
    let missing := skipn given params in
    Some (TypeError
            (Py.lit qualname ++ Py.lit "() missing "
             ++ Py.str_of_int (Z.of_nat (length missing))
             ++ Py.lit " required positional argument" ++ plural (length missing)
             ++ Py.lit ": " ++ name_list missing))
  else if Nat.ltb declared given then
    Some (TypeError
            (Py.lit qualname ++ Py.lit "() takes "
             ++ Py.str_of_int (Z.of_nat (S declared))
             ++ Py.lit " positional argument" ++ plural (S declared)
             ++ Py.lit " but " ++ Py.str_of_int (Z.of_nat (S given))
             ++ Py.lit (if Nat.eqb given 0 then " was given" else " were given")))
  else None.

End Call.

(** ** Configuration ([processor_config.py]) *)

(** [ProcessingConfig] after [__post_init__].  [temperature] is a float
    that the pipeline only hands on to the service; it is kept as a
    rational. *)
Record ProcessingConfig := {
  max_file_size : Z;
  text_extract_limit : Z;
  temperature : Q;
  ollama_model : list N;
  vision_model : list N;
  allowed_extensions : gset (list N);
  allowed_mime_types : gmap (list N) (gset (list N))
}.

Definition default_allowed_extensions : gset (list N) :=
  list_to_set
    [Py.lit ".pdf"; Py.lit ".docx"; Py.lit ".txt";
     Py.lit ".jpg"; Py.lit ".jpeg"; Py.lit ".png"].

Definition default_allowed_mime_types : gmap (list N) (gset (list N)) :=
  list_to_map
    [(Py.lit ".pdf", {[ Py.lit "application/pdf" ]});
     (Py.lit ".docx",
      {[ Py.lit "application/vnd.openxmlformats-officedocument.wordprocessingml.document" ]});
     (Py.lit ".txt", {[ Py.lit "text/plain"; Py.lit "text/csv" ]});
     (Py.lit ".jpg", {[ Py.lit "image/jpeg" ]});
     (Py.lit ".jpeg", {[ Py.lit "image/jpeg" ]});
     (Py.lit ".png", {[ Py.lit "image/png" ]})].

(** The dataclass constructor followed by [__post_init__]: an argument left
    out takes its default.  [DEFAULT_MODEL] and [VISION_MODEL] are read from
    the environment by [utils/config.py]. *)
Definition make_config (DEFAULT_MODEL VISION_MODEL : list N)
    (max_file_size_arg text_extract_limit_arg : option Z)
    (allowed_extensions_arg : option (gset (list N)))
    (allowed_mime_types_arg : option (gmap (list N) (gset (list N))))
  : ProcessingConfig :=
  {| max_file_size := default (100 * 1024 * 1024) max_file_size_arg;
     text_extract_limit := default 10000 text_extract_limit_arg;
     temperature := 0%Q;
     ollama_model := DEFAULT_MODEL;
     vision_model := VISION_MODEL;
     allowed_extensions := default default_allowed_extensions allowed_extensions_arg;
     allowed_mime_types := default default_allowed_mime_types allowed_mime_types_arg |}.

(** ** The Ollama service and the effect monad *)

(** One entry of the [messages] list of a chat call; [msg_images] is the
    optional ['images'] key. *)
Record message := {
  msg_role : list N;
  msg_content : list N;
  msg_images : option (list (list N))
}.

(** The arguments of [self.client.chat(model=, messages=, think=, options=)]. *)
Record chat_request := {
  req_model : list N;
  req_messages : list message;
  req_think : bool;
  req_temperature : Q
}.

(** What the service does with a call: it answers with
    [result.message.content], a string, or the call raises. *)
Inductive chat_reply : Type :=
| ChatResponse (message_content : list N)
| ChatFailure (e : exn).

(** The service is free to answer a request differently each time: its
    reply depends on the number of calls made before and on the request. *)
Definition service : Type := nat -> chat_request -> chat_reply.

(** The calls made so far, oldest first. *)
Definition trace : Type := list (chat_request * chat_reply).

Definition M (A : Type) : Type := trace -> outcome A * trace.

Definition ret {A : Type} (a : A) : M A := fun tr => (Return a, tr).

Definition raise {A : Type} (e : exn) : M A := fun tr => (Raise e, tr).

Definition bind {A B : Type} (m : M A) (k : A -> M B) : M B :=
  fun tr =>
    match m tr with
    | (Return a, tr') => k a tr'
    | (Raise e, tr') => (Raise e, tr')
    end.

(** [try: body except Exception as e: handler(e)] *)
Definition try_except {A : Type} (body : M A) (handler : exn -> M A) : M A :=
  fun tr =>
    match body tr with
    | (Return a, tr') => (Return a, tr')
    | (Raise e, tr') => handler e tr'
    end.

(** A call that has no effect on the service. *)
Definition lift {A : Type} (o : outcome A) : M A := fun tr => (o, tr).

Declare Scope py_scope.
Delimit Scope py_scope with py.
Notation "x <- m ;; k" := (bind m (fun x => k))
  (at level 100, m at next level, right associativity) : py_scope.

(** [await self.client.chat(...)], then [.message.content] of the result. *)
Definition client_chat (ollama : service) (req : chat_request) : M (list N) :=
  fun tr =>
    let reply := ollama (length tr) req in
    (match reply with
     | ChatResponse c => Return c
     | ChatFailure e => Raise e
     end, tr ++ [(req, reply)]).

(** The calls a computation adds to the trace [tr] it starts from. *)
Definition calls_made {A : Type} (m : M A) (tr : trace) : trace :=
  skipn (length tr) (snd (m tr)).

(** ** What the pipeline takes from the Python runtime and its libraries *)

(** The codec names of [_extract_text_from_txt_bytes]. *)
Inductive encoding : Type := utf_8 | latin_1 | windows_1252 | iso_8859_1.

(** What [python-docx] exposes of a document: the text of each paragraph,
    and for each table its rows of cell texts. *)
Record docx := {
  paragraphs : list (list N);
  tables : list (list (list (list N)))
}.

(** Library behaviour the pipeline relies on and the repository does not
    define.  Every property below holds for every such runtime. *)
Class Runtime := {
  (** [Path(filename).suffix] *)
  Path_suffix : list N -> list N;
  (** [s.lower()] *)
  str_lower : list N -> list N;
  (** a set of strings rendered in an f-string; the order of the elements
      is the interpreter's *)
  set_repr : gset (list N) -> list N;
  (** [fitz.open(stream=..., filetype='pdf')] followed by [page.get_text()]
      on each page in order: the page texts, or the first exception *)
  fitz_page_texts : list byte -> outcome (list (list N));
  (** [Document(BytesIO(...))] *)
  docx_Document : list byte -> outcome docx;
  (** [b.decode(encoding)]; [None] is [UnicodeDecodeError] *)
  bytes_decode : encoding -> list byte -> option (list N);
  (** [b.decode('utf-8', errors='replace')] *)
  bytes_decode_replace : list byte -> list N;
  (** [open(path, 'rb').read()] *)
  open_rb_read : list N -> outcome (list byte)
}.

(** ** The prompts *)

Definition nl : list N := [10%N].

Definition summary_prompt (doc_type text : list N) : list N :=
  Py.lit "
                You are an expert assistant specialized in summarizing " ++ doc_type ++ Py.lit " content.

                Your task is to create a structured, accurate, and concise summary.  
                Analyze the document carefully and produce the following:

                1. **Summary:**  
                - A clear and concise overview capturing the main ideas and purpose.

                2. **Key Points & Facts:**  
                - Extract the most relevant information, data, arguments, or findings.
                - Use bullet points for readability.

                3. **Context & Importance:**  
                - Explain why the content matters or what it is intended for.

                4. **Actionable Insights / Conclusions:**  
                - Highlight any decisions, recommendations, next steps, or implications.

                **Guidelines:**  
                - Preserve essential meaning and details.  
                - Avoid unnecessary filler or repetition.  
                - Use simple, easy-to-understand language.  
                - Maintain neutrality and do not add external information.

                ---

                **Content to summarize:**  
                " ++ text ++ Py.lit "
                ".

Definition vision_prompt : list N :=
  Py.lit "
                You are an expert vision-analysis assistant.  
                Analyze the image carefully and provide a structured, detailed report containing:

                1. **Extracted Text (OCR):**  
                - Transcribe all visible text exactly as it appears.  
                - Preserve line breaks, formatting, and labels when helpful.

                2. **Visual Description:**  
                - Describe all key elements in the image (objects, layout, colors, UI elements, diagrams, charts, people, etc.).  
                - Explain spatial relationships (e.g., “A banner at the top”, “A table with two columns”, “Buttons at the bottom”).

                3. **Key Information & Data:**  
                - Identify important information the image conveys (numbers, labels, steps, headings, metrics, actions, warnings, etc.).  
                - If the image is a document, form, screenshot, diagram, or code snippet, summarize its core content.

                4. **Context & Purpose:**  
                - Explain what the image is likely used for (e.g., instructions, a form to fill out, a dashboard, a configuration screen, a diagram explaining X).  
                - Provide potential intent or user action implied by the image.

                5. **Concise Summary:**  
                - A short, easy-to-understand summary of the most important information from the image.

                **Guidelines:**  
                - Be objective: do not hallucinate nonexistent text or content.  
                - If a section has no information, state “None found”.  
                - Make the response organized using headings and bullet points.

                The image will be provided separately.
                ".

(** ** Values handed around by the batch entry points *)

(** A [chainlit] file: [name], [mime], and the two places its bytes may be,
    [content] (in memory) and [path] (on disk). *)
Record cl_File := {
  File_name : list N;
  File_mime : list N;
  File_content : option (list byte);
  File_path : option (list N)
}.

(** The objects that reach a parameter declared as [file]. *)
Inductive pyval : Type :=
| VNone
| VStr (s : list N)
| VBytes (b : list byte)
| VFile (f : cl_File).

(** [type(v).__name__] *)
Definition type_name (v : pyval) : string :=
  match v with
  | VNone => "NoneType"
  | VStr _ => "str"
  | VBytes _ => "bytes"
  | VFile _ => "File"
  end.

(** An insertion-ordered [dict] with string keys: [d[k] = v]. *)
Fixpoint dict_set {V : Type} (d : list (list N * V)) (k : list N) (v : V)
  : list (list N * V) :=
  match d with
  | [] => [(k, v)]
  | (k', v') :: d' =>
    if Py.str_eqb k' k then (k', v) :: d' else (k', v') :: dict_set d' k v
  end.

(** [d.get(k)] *)
Fixpoint dict_get {V : Type} (d : list (list N * V)) (k : list N) : option V :=
  match d with
  | [] => None
  | (k', v') :: d' => if Py.str_eqb k' k then Some v' else dict_get d' k
  end.

(** What [batch_process_documents] stores under a filename: a string, or the
    coroutine object a call of an [async def] returns when nobody awaits
    it. *)
Inductive batch_value : Type :=
| Str (s : list N)
| Coroutine.

(** ** Validation errors *)

(** The messages of the [ValueError]s of [_validate_file], under the names
    the specification gives the failures. *)
Section Errors.
Context `{rt : Runtime}.

Definition UnsupportedExtension (extension : list N) : exn :=
  ValueError (Py.lit "Unsupported file extension: " ++ extension).

Definition ContentTypeMismatch (extension : list N) (expected_mimes : gset (list N))
    (mime_type : list N) : exn :=
  ValueError
    (Py.lit "File content doesn't match extension: " ++ extension ++ Py.lit ". "
     ++ Py.lit "Expected: " ++ set_repr expected_mimes
     ++ Py.lit ", Got: " ++ mime_type).

Definition FileTooLarge (size limit : Z) : exn :=
  ValueError
    (Py.lit "File size (" ++ Py.str_of_int size ++ Py.lit " bytes) exceeds limit ("
     ++ Py.str_of_int limit ++ Py.lit " bytes)").

Definition UnsafeFilename : exn :=
  ValueError (Py.lit "Invalid filename: potential path traversal detected").

Definition InvalidInput : exn :=
  ValueError (Py.lit "Filename and file_bytes are required").

Definition ContentUnavailable : exn :=
  ValueError (Py.lit "File content is not available as bytes or valid path").

End Errors.

(** ** [class DocumentProcessor] *)

(** The extraction methods [file_processor_map] points at. *)
Inductive processor : Type :=
| pdf_processor      (* self._extract_text_from_pdf_bytes *)
| docx_processor     (* self._extract_text_from_docx_bytes *)
| txt_processor      (* self._extract_text_from_txt_bytes *)
| image_processor.   (* self._extract_content_from_image_bytes *)

(** [self.file_processor_map] *)
Definition file_processor_map : gmap (list N) processor :=
  list_to_map
    [(Py.lit ".pdf", pdf_processor);
     (Py.lit ".docx", docx_processor);
     (Py.lit ".txt", txt_processor);
     (Py.lit ".jpg", image_processor);
     (Py.lit ".jpeg", image_processor);
     (Py.lit ".png", image_processor)].

(** The dictionary [_get_file_info] returns. *)
Record file_info := {
  info_filename : list N;
  info_extension : list N;
  info_size : Z;
  info_mime_type : list N
}.

Section DocumentProcessor.

Context `{rt : Runtime}.

(** [self.client] and [self.config] *)
Variable ollama : service.
Variable config : ProcessingConfig.

Local Open Scope py_scope.

Definition _read_bytes (file : cl_File) : outcome (list byte) :=
  match File_content file with
  | Some content => Return content
  | None =>
    match File_path file with
    | Some file_path =>
      if Py.py_not file_path then Raise ContentUnavailable
      else open_rb_read file_path
    | None => Raise ContentUnavailable
    end
  end.

Definition _get_expected_mime_types (extension : list N) : gset (list N) :=
  default ∅ (allowed_mime_types config !! str_lower extension).

Definition _get_file_info (filename : list N) (file_bytes : list byte)
    (file_mime : list N) : file_info :=
  {| info_filename := filename;
     info_extension := str_lower (Path_suffix filename);
     info_size := Py.len file_bytes;
     info_mime_type := file_mime |}.

Definition _validate_file (filename : list N) (file_bytes : list byte)
    (file_mime : list N) : outcome file_info :=
  let file_info := _get_file_info filename file_bytes file_mime in
  (* Validate file extension *)
  if negb (bool_decide (info_extension file_info ∈ allowed_extensions config)) then
    Raise (UnsupportedExtension (info_extension file_info))
  else
    (* Validate file content matches extension *)
    let expected_mimes := _get_expected_mime_types (info_extension file_info) in
    if negb (bool_decide (expected_mimes = ∅))
       && negb (bool_decide (info_mime_type file_info ∈ expected_mimes)) then
      Raise (ContentTypeMismatch (info_extension file_info) expected_mimes
               (info_mime_type file_info))
    (* Check file size *)
    else if max_file_size config <? info_size file_info then
      Raise (FileTooLarge (info_size file_info) (max_file_size config))
    (* Validate filename for security *)
    else if Py.contains (Py.lit "..") filename || Py.startswith (Py.lit "/") filename then
      Raise UnsafeFilename
    else Return file_info.

Definition user_message (prompt : list N) (images : option (list (list N))) : message :=
  {| msg_role := Py.lit "user"; msg_content := prompt; msg_images := images |}.

Definition summary_request (text doc_type : list N) : chat_request :=
  {| req_model := ollama_model config;
     req_messages := [user_message (summary_prompt doc_type text) None];
     req_think := true;
     req_temperature := temperature config |}.

(** The string returned when the summarization call raises. *)
Definition original_content (text : list N) : list N :=
  Py.lit "Original content:" ++ nl ++ nl
  ++ Py.slice_to (text_extract_limit config) text.

Definition no_extractable_text : list N := Py.lit "No extractable text content found.".

Definition _clean_and_summarize_text (text doc_type : list N) : M (list N) :=
  if Py.py_not text || Py.py_not (Py.strip text) then ret no_extractable_text
  else
    try_except
      (result <- client_chat ollama (summary_request text doc_type) ;;
       ret result)
      (fun e => ret (original_content text)).

(** The header [f"\n--- Page {page_num + 1} ---\n"]. *)
Definition page_header (page_num : nat) : list N :=
  nl ++ Py.lit "--- Page " ++ Py.str_of_int (Z.of_nat page_num + 1) ++ Py.lit " ---" ++ nl.

(** [for page_num, page in enumerate(doc)], started at index [page_num]
    with the text gathered so far. *)
Fixpoint pdf_page_loop (page_num : nat) (pages : list (list N)) (text : list N)
  : list N :=
  match pages with
  | [] => text
  | page_text :: rest =>
    pdf_page_loop (S page_num) rest
      (if Py.py_not page_text then text
       else text ++ page_header page_num ++ page_text)
  end.

(** The text [_extract_text_from_pdf_bytes] has gathered when the loop over
    the pages ends. *)
Definition pdf_text (pages : list (list N)) : list N := pdf_page_loop 0 pages [].

Definition _extract_text_from_pdf_bytes (pdf_bytes : list byte) : M (list N) :=
  try_except
    (pages <- lift (fitz_page_texts pdf_bytes) ;;
     let text := pdf_text pages in
     result <- _clean_and_summarize_text
                 (Py.slice_to (text_extract_limit config) text) (Py.lit "PDF") ;;
     ret result)
    (fun e => raise (ValueError (Py.lit "Failed to process PDF: " ++ exn_str e))).

(** [for paragraph in doc.paragraphs] *)
Definition docx_paragraph_text (paragraphs : list (list N)) : list N :=
  fold_left
    (fun text paragraph => if Py.py_not paragraph then text else text ++ paragraph ++ nl)
    paragraphs [].

(** [for row in table.rows] *)
Definition docx_row_loop (rows : list (list (list N))) (text : list N) : list N :=
  fold_left
    (fun text cells =>
       let row_text :=
         Py.join (Py.lit " | ") (List.filter (fun cell => negb (Py.py_not cell)) cells) in
       if Py.py_not row_text then text
       else text ++ Py.lit "Table row: " ++ row_text ++ nl)
    rows text.

(** The text [_extract_text_from_docx_bytes] has gathered after both loops. *)
Definition docx_text (doc : docx) : list N :=
  fold_left (fun text rows => docx_row_loop rows text) (tables doc)
    (docx_paragraph_text (paragraphs doc)).

Definition _extract_text_from_docx_bytes (docx_bytes : list byte) : M (list N) :=
  try_except
    (doc <- lift (docx_Document docx_bytes) ;;
     let text := docx_text doc in
     result <- _clean_and_summarize_text
                 (Py.strip (Py.slice_to (text_extract_limit config) text))
                 (Py.lit "DOCX") ;;
     ret result)
    (fun e => raise (ValueError (Py.lit "Failed to process DOCX: " ++ exn_str e))).

Definition encodings : list encoding := [utf_8; latin_1; windows_1252; iso_8859_1].

(** [for encoding in encodings: try: text = ...; break; except
    UnicodeDecodeError: continue]; [None] is [text is None] after the loop. *)
Fixpoint decode_loop (encs : list encoding) (txt_bytes : list byte) : option (list N) :=
  match encs with
  | [] => None
  | encoding :: rest =>
    match bytes_decode encoding txt_bytes with
    | Some text => Some text
    | None => decode_loop rest txt_bytes
    end
  end.

(** The decoding step of [_extract_text_from_txt_bytes]: the loop, then the
    fallback that replaces errors. *)
Definition txt_decode (txt_bytes : list byte) : list N :=
  match decode_loop encodings txt_bytes with
  | Some text => text
  | None => bytes_decode_replace txt_bytes
  end.

Definition _extract_text_from_txt_bytes (txt_bytes : list byte) : M (list N) :=
  try_except
    (let text := txt_decode txt_bytes in
     result <- _clean_and_summarize_text
                 (Py.slice_to (text_extract_limit config) text) (Py.lit "TXT") ;;
     ret result)
    (fun e => raise (ValueError (Py.lit "Failed to process text file: " ++ exn_str e))).

(** [base64.b64encode(image_bytes).decode('utf-8')]: the encoding is ASCII,
    so each byte decodes to the code point of the same value. *)
Definition image_base64 (image_bytes : list byte) : list N :=
  Py.byte_values (Base64.b64encode image_bytes).

Definition vision_request (image_bytes : list byte) : chat_request :=
  {| req_model := vision_model config;
     req_messages := [user_message vision_prompt (Some [image_base64 image_bytes])];
     req_think := true;
     req_temperature := temperature config |}.

Definition _extract_content_from_image_bytes (image_bytes : list byte) : M (list N) :=
  try_except
    (result <- client_chat ollama (vision_request image_bytes) ;;
     summary_result <- _clean_and_summarize_text result (Py.lit "image") ;;
     ret summary_result)
    (fun e => raise (ValueError (Py.lit "Failed to process image: " ++ exn_str e))).

(** [await processor(file_bytes)] *)
Definition run_processor (p : processor) (file_bytes : list byte) : M (list N) :=
  match p with
  | pdf_processor => _extract_text_from_pdf_bytes file_bytes
  | docx_processor => _extract_text_from_docx_bytes file_bytes
  | txt_processor => _extract_text_from_txt_bytes file_bytes
  | image_processor => _extract_content_from_image_bytes file_bytes
  end.

Definition process_document_async (filename : list N) (file_bytes : list byte)
    (file_mime : list N) : M (list N) :=
  try_except
    (if Py.py_not filename || Py.py_not file_bytes then raise InvalidInput
     else
       file_info <- lift (_validate_file filename file_bytes file_mime) ;;
       match file_processor_map !! info_extension file_info with
       | None => raise (UnsupportedExtension (info_extension file_info))
       | Some processor =>
         result <- run_processor processor file_bytes ;;
         ret result
       end)
    (fun e => raise e).

(** [f"Error processing {filename}: {str(e)}"] *)
Definition error_entry (filename : list N) (e : exn) : list N :=
  Py.lit "Error processing " ++ filename ++ Py.lit ": " ++ exn_str e.

(** The parameters [process_document_async] declares after [self]. *)
Definition process_document_async_params : list string :=
  ["filename"; "file_bytes"; "file_mime"]%string.

(** [batch_process_documents]: the loop over [file_data.items()].  The call
    [self.process_document_async(filename, file_bytes)] passes two
    arguments and is not awaited: were they bound, the coroutine object
    itself would be stored. *)
Definition batch_process_documents (file_data : list (list N * list byte))
  : list (list N * batch_value) :=
  fold_left
    (fun results '(filename, file_bytes) =>
       match Call.bind_positional "DocumentProcessor.process_document_async"
               process_document_async_params
               (length [VStr filename; VBytes file_bytes]) with
       | None => dict_set results filename Coroutine
       | Some e => dict_set results filename (Str (error_entry filename e))
       end)
    file_data [].

Definition process_single_file_async (file : pyval) : M (list N) :=
  match file with
  | VNone => raise (ValueError (Py.lit "File is None"))
  | VFile f =>
    let filename := File_name f in
    file_bytes <- lift (_read_bytes f) ;;
    let file_mime := File_mime f in
    content <- process_document_async filename file_bytes file_mime ;;
    ret content
  | other =>
    (* [file.name] on an object of another type *)
    raise (Exn "AttributeError"
             (Py.lit "'" ++ Py.lit (type_name other)
              ++ Py.lit "' object has no attribute 'name'"))
  end.

(** The parameters [process_single_file_async] declares after [self]. *)
Definition process_single_file_async_params : list string := ["file"]%string.

(** [self.process_single_file_async] called on [args]: the coroutine, once the
    arguments are bound. *)
Definition call_process_single_file_async (args : list pyval) : outcome (M (list N)) :=
  match Call.bind_positional "DocumentProcessor.process_single_file_async"
          process_single_file_async_params (length args) with
  | Some e => Raise e
  | None =>
    match args with
    | [file] => Return (process_single_file_async file)
    | _ => Raise (TypeError [])   (* not reached: one argument was bound *)
    end
  end.

(** The first loop of [batch_process_documents_async]: one task per item.
    The calls are made outside any [try]. *)
Fixpoint create_tasks (items : list (list N * list byte))
  : outcome (list (list N * M (list N))) :=
  match items with
  | [] => Return []
  | (filename, file_bytes) :: rest =>
    match call_process_single_file_async [VStr filename; VBytes file_bytes] with
    | Raise e => Raise e
    | Return task =>
      match create_tasks rest with
      | Raise e => Raise e
      | Return tasks => Return ((filename, task) :: tasks)
      end
    end
  end.

(** The second loop: [results[filename] = await task], an exception of the
    task becoming that file's entry.  A task is run when it is awaited. *)
Fixpoint await_tasks (tasks : list (list N * M (list N)))
    (results : list (list N * list N)) : M (list (list N * list N)) :=
  match tasks with
  | [] => ret results
  | (filename, task) :: rest =>
    results' <- try_except
                  (content <- task ;; ret (dict_set results filename content))
                  (fun e => ret (dict_set results filename (error_entry filename e))) ;;
    await_tasks rest results'
  end.

Definition batch_process_documents_async (file_data : list (list N * list byte))
  : M (list (list N * list N)) :=
  tasks <- lift (create_tasks file_data) ;;
  await_tasks tasks [].

End DocumentProcessor.

(** ** A concrete runtime *)

(** CPython's own behaviour for the parts of [Runtime] that are plain
    algorithms ([pathlib] on POSIX, the four codecs, [str.lower] on ASCII
    text), used to run the pipeline on concrete files.  The document
    readers and the file system stay arguments. *)
Module CPython.

(** [s.split(sep)] for a one-character separator. *)
Fixpoint split (sep : N) (s : list N) : list (list N) :=
  match s with
  | [] => [[]]
  | c :: s' =>
    if (c =? sep)%N then [] :: split sep s'
    else
      match split sep s' with
      | [] => [[c]]
      | first :: others => (c :: first) :: others
      end
  end.

(** [PurePosixPath(filename).name]: the last component that is neither
    empty nor a single dot. *)
Definition path_name (filename : list N) : list N :=
  List.last
    (List.filter (fun part => negb (Py.py_not part) && negb (Py.str_eqb part (Py.lit ".")))
       (split 47 filename)) [].

(** [name[i:]] for the last [i] with [name[i] == '.'], if there is one. *)
Fixpoint from_last_dot (name : list N) : option (list N) :=
  match name with
  | [] => None
  | c :: rest =>
    match from_last_dot rest with
    | Some tail => Some tail
    | None => if (c =? 46)%N then Some name else None
    end
  end.

(** [PurePosixPath(filename).suffix]: [name[i:]] when [0 < i < len(name) - 1]
    for [i = name.rfind('.')], the empty string otherwise. *)
Definition suffix (filename : list N) : list N :=
  match path_name filename with
  | [] => []
  | _ :: rest =>
    match from_last_dot rest with
    | Some tail => if Nat.ltb 1 (length tail) then tail else []
    | None => []
    end
  end.

(** [str.lower] on ASCII letters; other code points are left alone. *)
Definition lower (s : list N) : list N :=
  List.map (fun c => if Py.in_range 65 90 c then (c + 32)%N else c) s.

(** The rendering of a non-empty set of plain strings, in the order
    [elements] lists them. *)
Definition repr_set (s : gset (list N)) : list N :=
  match elements s with
  | [] => Py.lit "set()"
  | items =>
    Py.lit "{"
    ++ Py.join (Py.lit ", ")
         (List.map (fun item => Py.lit "'" ++ item ++ Py.lit "'") items)
    ++ Py.lit "}"
  end.

(** The code point of a byte under [windows-1252] for the bytes [0x80] to
    [0x9F]; five of them are unassigned. *)
Definition cp1252_high (b : N) : option N :=
  match b with
  | 0x80 => Some 0x20AC | 0x82 => Some 0x201A | 0x83 => Some 0x0192
  | 0x84 => Some 0x201E | 0x85 => Some 0x2026 | 0x86 => Some 0x2020
  | 0x87 => Some 0x2021 | 0x88 => Some 0x02C6 | 0x89 => Some 0x2030
  | 0x8A => Some 0x0160 | 0x8B => Some 0x2039 | 0x8C => Some 0x0152
  | 0x8E => Some 0x017D | 0x91 => Some 0x2018 | 0x92 => Some 0x2019
  | 0x93 => Some 0x201C | 0x94 => Some 0x201D | 0x95 => Some 0x2022
  | 0x96 => Some 0x2013 | 0x97 => Some 0x2014 | 0x98 => Some 0x02DC
  | 0x99 => Some 0x2122 | 0x9A => Some 0x0161 | 0x9B => Some 0x203A
  | 0x9C => Some 0x0153 | 0x9E => Some 0x017E | 0x9F => Some 0x0178
  | _ => None
  end%N.

Fixpoint cp1252 (bs : list N) : option (list N) :=
  match bs with
  | [] => Some []
  | b :: rest =>
    let c := if Py.in_range 0x80 0x9F b then cp1252_high b else Some b in
    match c, cp1252 rest with
    | Some c, Some cs => Some (c :: cs)
    | _, _ => None
    end
  end.

Definition decode (enc : encoding) (b : list byte) : option (list N) :=
  match enc with
  | utf_8 => Py.utf8_strict b
  | latin_1 => Some (Py.byte_values b)
  | windows_1252 => cp1252 (Py.byte_values b)
  | iso_8859_1 => Some (Py.byte_values b)
  end.

#[local] Instance runtime
    (pdf_reader : list byte -> outcome (list (list N)))
    (docx_reader : list byte -> outcome docx)
    (disk : list N -> outcome (list byte)) : Runtime :=
  {| Path_suffix := suffix;
     str_lower := lower;
     set_repr := repr_set;
     fitz_page_texts := pdf_reader;
     docx_Document := docx_reader;
     bytes_decode := decode;
     bytes_decode_replace := Py.utf8_replace;
     open_rb_read := disk |}.

End CPython.

(** ** Concrete inputs *)

Module Sample.

(** [ProcessingConfig()] with two model names in the environment. *)
Definition config : ProcessingConfig :=
  make_config (Py.lit "llama3.2") (Py.lit "llava") None None None None.


(** A runtime whose document readers reject what they are given and whose
    disk holds no file. *)
#[local] Instance runtime : Runtime :=
  CPython.runtime
    (fun _ => Raise (Exn "FileDataError" (Py.lit "Failed to open stream")))
    (fun _ => Raise (Exn "BadZipFile" (Py.lit "File is not a zip file")))
    (fun _ => Raise (Exn "FileNotFoundError" (Py.lit "No such file or directory"))).

Definition refused : exn := Exn "ConnectionError" (Py.lit "Connection refused").

(** A service that answers every call with the same text. *)
Definition answering : service := fun _ _ => ChatResponse (Py.lit "SUMMARY").

(** A service that is down: every call raises. *)
Definition down : service := fun _ _ => ChatFailure refused.

(** A service whose answers carry no text. *)
Definition silent : service := fun _ _ => ChatResponse [].

(** A service whose vision model answers and whose text model is down. *)
Definition vision_only : service :=
  fun n _ =>
    match n with
    | O => ChatResponse (Py.lit "A red square.")
    | S _ => ChatFailure refused
    end.

Definition image_bytes : list byte := [x89; x50; x4e; x47; x0d; x0a; x1a; x0a].

(** A batch of three files, the second with an extension that is not
    allowed. *)
Definition three_files : list (list N * list byte) :=
  [(Py.lit "a.txt", Py.blit "hello");
   (Py.lit "b.exe", Py.blit "MZ");
   (Py.lit "c.txt", Py.blit "world")].

(** A file as the chat front end hands it over, its bytes in memory. *)
Definition as_file (filename mime : string) (content : string) : pyval :=
  VFile {| File_name := Py.lit filename; File_mime := Py.lit mime;
           File_content := Some (Py.blit content); File_path := None |}.

End Sample.

(** The number of places at which [p] occurs in [s]. *)
Fixpoint occurrences (p s : list N) : nat :=
  (if Py.startswith p s then 1 else 0)%nat
  + match s with
    | [] => 0%nat
    | _ :: s' => occurrences p s'
    end.

(** [enumerate(xs)], counting from [start]. *)
Fixpoint enumerate {A : Type} (start : nat) (xs : list A) : list (nat * A) :=
  match xs with
  | [] => []
  | x :: xs' => (start, x) :: enumerate (S start) xs'
  end.

(** ** More concrete inputs *)

Module Cases.


(** [ProcessingConfig(text_extract_limit=5)] *)
Definition short_config : ProcessingConfig :=
  make_config (Py.lit "llama3.2") (Py.lit "llava") None (Some 5) None None.

(** [ProcessingConfig(text_extract_limit=-1)] *)
Definition negative_config : ProcessingConfig :=
  make_config (Py.lit "llama3.2") (Py.lit "llava") None (Some (-1)) None None.

(** A runtime that reads every PDF as the three pages given and every DOCX
    as the document given, and finds every path on disk with the same
    content. *)
Definition reading (pages : list (list N)) (doc : docx) (on_disk : list byte) : Runtime :=
  CPython.runtime (fun _ => Return pages) (fun _ => Return doc) (fun _ => Return on_disk).

Definition blank_docx : docx :=
  {| paragraphs := [[]; []]; tables := [[[[]; []]; []]] |}.

Definition hello_docx : docx :=
  {| paragraphs := [Py.lit "Hello"; []]; tables := [[[Py.lit "A"; []; Py.lit "B"]; [[]]]] |}.

(** A file the front end holds in memory, and one it keeps on disk. *)
Definition in_memory (filename mime content : string) : cl_File :=
  {| File_name := Py.lit filename; File_mime := Py.lit mime;
     File_content := Some (Py.blit content); File_path := Some (Py.lit "/tmp/upload") |}.

Definition on_disk (filename mime path : string) : cl_File :=
  {| File_name := Py.lit filename; File_mime := Py.lit mime;
     File_content := None; File_path := Some (Py.lit path) |}.

Definition nowhere (filename mime : string) : cl_File :=
  {| File_name := Py.lit filename; File_mime := Py.lit mime;
     File_content := None; File_path := None |}.

End Cases.

(** ** The chat front end ([main.py], [ui/chat_resume.py]) *)

(** [s.endswith(suffix)] *)
Definition endswith (suffix s : list N) : bool := Py.startswith (rev suffix) (rev s).

(** What [on_message] reads of a [cl.Message]: its text and its
    attachments. *)
Record cl_Message := {
  Message_content : list N;
  Message_elements : list cl_File
}.

(** The tuple of suffixes [on_message] looks for. *)
Definition document_suffixes : list (list N) :=
  [Py.lit ".pdf"; Py.lit ".docx"; Py.lit ".txt"; Py.lit ".jpg"; Py.lit ".jpeg"; Py.lit ".png"].

(** [str(f.name).lower().endswith((".pdf", ..., ".png"))] *)
Definition is_document `{rt : Runtime} (f : cl_File) : bool :=
  existsb (fun suffix => endswith suffix (str_lower (File_name f))) document_suffixes.

(** How the first part of [on_message] ends: it has returned, or it goes on
    to the chat model with the text of the message as it then is. *)
Inductive prepared : Type :=
| Ignored
| Prepared (content : list N).

(** [on_message] up to the choice of the chat model (lines 178 to 205).
    What follows calls [src/llm/call_model.py], which is not part of the
    sources.  [DocumentProcessor()] is built with its defaults, the two
    model names coming from the environment. *)
Definition on_message_prepare `{rt : Runtime} (ollama : service)
    (DEFAULT_MODEL VISION_MODEL : list N) (user_message : option cl_Message)
  : M prepared :=
  match user_message with
  | None => ret Ignored
  | Some message =>
    if Py.py_not (Message_content message) then ret Ignored
    else if Py.py_not (Message_elements message) then
      ret (Prepared (Message_content message))
    else
      let docs := List.filter is_document (Message_elements message) in
      match docs with
      | [] => raise (ValueError (Py.lit "No valid document files found"))
      | file :: _ =>
        bind
          (process_single_file_async ollama
             (make_config DEFAULT_MODEL VISION_MODEL None None None None) (VFile file))
          (fun extracted_content =>
             if Py.py_not extracted_content then ret (Prepared (Message_content message))
             else ret (Prepared (Message_content message ++ nl ++ nl ++ extracted_content)))
      end
  end.

(** One entry of the chat history: [{"role": ..., "content": ...}]. *)
Record history_entry := {
  entry_role : list N;
  entry_content : list N
}.

(** A step of a stored thread, as far as [resume_chats] reads it: the keys
    ["type"] and ["output"], either of which a step may lack. *)
Record thread_step := {
  step_type : option (list N);
  step_output : option (list N)
}.

(** [KeyError(key)]; its text is the key in quotes. *)
Definition KeyError (key : string) : exn :=
  Exn "KeyError" (Py.lit "'" ++ Py.lit key ++ Py.lit "'").

(** The loop of [resume_chats] over [thread["steps"]], on the list stored in
    the session under ["chat_history"].  The list is appended to in place:
    what was appended before an exception stays. *)
Fixpoint resume_loop (steps : list thread_step) (chat_history : list history_entry)
  : outcome unit * list history_entry :=
  match steps with
  | [] => (Return tt, chat_history)
  | message :: rest =>
    match step_type message with
    | None => (Raise (KeyError "type"), chat_history)
    | Some type =>
      if Py.str_eqb type (Py.lit "user_message") then
        match step_output message with
        | None => (Raise (KeyError "output"), chat_history)
        | Some output =>
          resume_loop rest
            (chat_history
             ++ [{| entry_role := Py.lit "user"; entry_content := output |}])
        end
      else if Py.str_eqb type (Py.lit "assistant_message") then
        match step_output message with
        | None => (Raise (KeyError "output"), chat_history)
        | Some output =>
          resume_loop rest
            (chat_history
             ++ [{| entry_role := Py.lit "assistant"; entry_content := output |}])
        end
      else resume_loop rest chat_history
    end
  end.

(** [resume_chats(thread)]: the history of the session, whatever it was, is
    set to the empty list and filled from the steps of the thread. *)
Definition resume_chats (steps : list thread_step) (session_history : list history_entry)
  : outcome unit * list history_entry :=
  resume_loop steps [].

(** [json.dumps({"error": message})]: the message between quotes, with the
    escapes of [json] for a string when [ensure_ascii] is on. *)
Module Json.

Definition hex_digit (n : N) : N := (if n <? 10 then 48 + n else 87 + n)%N.

(** [\uXXXX] *)
Definition u_escape (c : N) : list N :=
  [92; 117; hex_digit (c / 4096 mod 16); hex_digit (c / 256 mod 16);
   hex_digit (c / 16 mod 16); hex_digit (c mod 16)]%N.

Definition escape_char (c : N) : list N :=
  (if c =? 34 then [92; 34]
   else if c =? 92 then [92; 92]
   else if c =? 10 then [92; 110]
   else if c =? 13 then [92; 114]
   else if c =? 9 then [92; 116]
   else if c =? 8 then [92; 98]
   else if c =? 12 then [92; 102]
   else if Py.in_range 32 126 c then [c]
   else if c <? 65536 then u_escape c
   else u_escape (55296 + (c - 65536) / 1024 mod 1024)
        ++ u_escape (56320 + (c - 65536) mod 1024))%N.

Definition escape (s : list N) : list N := concat (List.map escape_char s).

Definition error_object (message : list N) : list N :=
  [123; 34]%N ++ Py.lit "error" ++ [34; 58; 32; 34]%N ++ escape message ++ [34; 125]%N.

End Json.

(** The MCP side of the front end.  A schema, the arguments of a tool call
    and its result are passed along unread. *)
Section Mcp.

Variables Schema Args Result : Type.

(** A tool as [session.list_tools()] reports it. *)
Record listed_tool := {
  listed_name : list N;
  listed_description : option (list N);
  listed_inputSchema : Schema
}.

(** A tool as the session stores it:
    [{"type": "function", "function": {"name", "description", "parameters"}}]. *)
Record tool_entry := {
  fn_name : list N;
  fn_description : option (list N);
  fn_parameters : Schema
}.

(** [on_mcp(connection, session)] on the session's ["mcp_tools"] entry
    ([None] when the key is not set): the outcome of the handler and the
    entry afterwards.  [list_tools] is what [await session.list_tools()]
    does. *)
Definition on_mcp (connection_name : list N) (list_tools : outcome (list listed_tool))
    (mcp_tools : option (list (list N * list tool_entry)))
  : outcome unit * option (list (list N * list tool_entry)) :=
  match list_tools with
  | Raise e => (Raise e, mcp_tools)
  | Return result_tools =>
    let tools :=
      List.map
        (fun t => {| fn_name := listed_name t;
                     fn_description := listed_description t;
                     fn_parameters := listed_inputSchema t |})
        result_tools in
    (Return tt, Some (dict_set (default [] mcp_tools) connection_name tools))
  end.

(** [any(tool['function']['name'] == tool_name for tool in tools)] *)
Definition exposes (tool_name : list N) (tools : list tool_entry) : bool :=
  existsb (fun tool => Py.str_eqb (fn_name tool) tool_name) tools.

(** The loop of [call_tool] over [mcp_tools.items()], left at the first
    connection that exposes the tool; [None] is [mcp_name] left at [None]. *)
Fixpoint find_connection (tool_name : list N) (items : list (list N * list tool_entry))
  : option (list N) :=
  match items with
  | [] => None
  | (connection_name, tools) :: rest =>
    if exposes tool_name tools then Some connection_name
    else find_connection tool_name rest
  end.

(** What [current_step.output] holds when [call_tool] returns it: the
    result of the remote tool, or a JSON text. *)
Inductive tool_output : Type :=
| ToolResult (result : Result)
| Text (json : list N).

(** [call_tool(tool_name, tool_args)].  [mcp_sessions] is the dictionary of
    the chainlit session; an entry stands for [mcp_sessions[name][0]] and
    says what its [call_tool] does. *)
Definition call_tool
    (mcp_tools : option (list (list N * list tool_entry)))
    (mcp_sessions : list (list N * (list N -> Args -> outcome Result)))
    (tool_name : list N) (tool_args : Args) : tool_output :=
  let not_found :=
    Text (Json.error_object
            (Py.lit "Tool " ++ tool_name ++ Py.lit " not found in any MCP connection")) in
  match find_connection tool_name (default [] mcp_tools) with
  | None => not_found
  | Some mcp_name =>
    if Py.py_not mcp_name then not_found
    else
      match dict_get mcp_sessions mcp_name with
      | Some mcp_session =>
        match mcp_session tool_name tool_args with
        | Return result => ToolResult result
        | Raise e => Text (Json.error_object (exn_str e))
        end
      | None =>
        Text (Json.error_object
                (Py.lit "MCP session " ++ mcp_name ++ Py.lit " not available"))
      end
  end.

End Mcp.

Arguments listed_name {Schema} _.
Arguments listed_description {Schema} _.
Arguments listed_inputSchema {Schema} _.
Arguments fn_name {Schema} _.
Arguments fn_description {Schema} _.
Arguments fn_parameters {Schema} _.
Arguments on_mcp {Schema} _ _ _.
Arguments exposes {Schema} _ _.
Arguments find_connection {Schema} _ _.
Arguments ToolResult {Result} _.
Arguments Text {Result} _.
Arguments call_tool {Schema Args Result} _ _ _ _.

(** * Properties *)

(** ** Strings *)



Lemma lstrip_head (s : list N) (c : N) (r : list N) :
  Py.lstrip s = c :: r -> Py.isspace c = false.
Proof.
  induction s as [|x s IH]; simpl; [discriminate |].
  destruct (Py.isspace x) eqn:E; [exact IH |].
  intros H. injection H as <- _. exact E.
Qed.

Lemma lstrip_nil_iff (s : list N) :
  Py.lstrip s = [] <-> Forall (fun c => Py.isspace c = true) s.
Proof.
  induction s as [|x s IH]; simpl.
  - split; [constructor | reflexivity].
  - destruct (Py.isspace x) eqn:E.
    + rewrite IH. split; [intros H; constructor; assumption | intros H; inversion H; assumption].
    + split; [discriminate | intros H; inversion H; congruence].
Qed.

Lemma strip_nil_iff (s : list N) :
  Py.strip s = [] <-> Forall (fun c => Py.isspace c = true) s.
Proof.
  unfold Py.strip, Py.rstrip. split.
  - intros H. apply lstrip_nil_iff.
    destruct (Py.lstrip s) as [|c r] eqn:E; [reflexivity |].
    pose proof (lstrip_head _ _ _ E) as Hc.
    apply (f_equal (@rev N)) in H. rewrite rev_involutive in H.
    change (rev (@nil N)) with (@nil N) in H.
    apply lstrip_nil_iff in H. apply Forall_rev in H. rewrite rev_involutive in H.
    inversion H; congruence.
  - intros H. apply lstrip_nil_iff in H. rewrite H. reflexivity.
Qed.

(** The guard [not text or not text.strip()] holds exactly on the texts
    made of whitespace only, the empty one among them. *)
Lemma blank_guard_iff (text : list N) :
  Py.py_not text || Py.py_not (Py.strip text) = true
  <-> Forall (fun c => Py.isspace c = true) text.
Proof.
  rewrite <- strip_nil_iff, orb_true_iff. split.
  - intros [H | H].
    + destruct text; [reflexivity | discriminate].
    + destruct (Py.strip text); [reflexivity | discriminate].
  - intros ->. right. reflexivity.
Qed.

Lemma slice_to_nonneg {A : Type} (n : Z) (s : list A) :
  0 <= n -> Py.slice_to n s = firstn (Z.to_nat n) s.
Proof.
  intros H. unfold Py.slice_to. destruct (0 <=? n) eqn:E; [reflexivity | lia].
Qed.

Lemma skipn_length_app {A : Type} (l1 l2 : list A) : skipn (length l1) (l1 ++ l2) = l2.
Proof. induction l1; simpl; auto. Qed.

(** ** The summarization adapter *)

Section Summarization.

Variable ollama : service.
Variable config : ProcessingConfig.

(** On a text of whitespace only the adapter returns at once. *)
Lemma summarize_blank (text doc_type : list N) (tr : trace) :
  Forall (fun c => Py.isspace c = true) text ->
  _clean_and_summarize_text ollama config text doc_type tr
  = (Return no_extractable_text, tr).
Proof.
  intros H. apply blank_guard_iff in H.
  unfold _clean_and_summarize_text. rewrite H. reflexivity.
Qed.

(** On any other text it makes one call, and absorbs its failure. *)
Lemma summarize_call (text doc_type : list N) (tr : trace) :
  Py.strip text <> [] ->
  _clean_and_summarize_text ollama config text doc_type tr
  = (Return match ollama (length tr) (summary_request config text doc_type) with
            | ChatResponse summary => summary
            | ChatFailure _ => original_content config text
            end,
     tr ++ [(summary_request config text doc_type,
             ollama (length tr) (summary_request config text doc_type))]).
Proof.
  intros H. unfold _clean_and_summarize_text.
  destruct (Py.py_not text || Py.py_not (Py.strip text)) eqn:E.
  - apply blank_guard_iff, strip_nil_iff in E. contradiction.
  - unfold try_except, bind, client_chat, ret.
    destruct (ollama (length tr) (summary_request config text doc_type)); reflexivity.
Qed.

Lemma strip_cases (text : list N) :
  Forall (fun c => Py.isspace c = true) text \/ Py.strip text <> [].
Proof.
  destruct (Py.strip text) eqn:E.
  - left. apply strip_nil_iff. exact E.
  - right. discriminate.
Qed.

(** The adapter never raises. *)
Lemma summarize_returns (text doc_type : list N) (tr : trace) :
  returned (fst (_clean_and_summarize_text ollama config text doc_type tr)).
Proof.
  destruct (strip_cases text) as [H | H].
  - rewrite summarize_blank by exact H. eexists. reflexivity.
  - rewrite summarize_call by exact H. eexists. reflexivity.
Qed.

(** C4, as the code has it.  For every text with a character that is not
    whitespace, when the call to the summarization service fails, whatever
    the exception, the adapter does not raise: it makes that one call and
    returns the header "Original content:" and a blank line followed by
    [text[:N]], N being the configured extraction limit.  That is the first
    N characters of the text when N is not negative, and the text without
    its last -N characters when it is. *)
Theorem summarization_failure_degrades (text doc_type : list N) (tr : trace) (e : exn) :
  Exists (fun c => Py.isspace c = false) text ->
  ollama (length tr) (summary_request config text doc_type) = ChatFailure e ->
  _clean_and_summarize_text ollama config text doc_type tr
  = (Return (Py.lit "Original content:" ++ nl ++ nl
             ++ (if 0 <=? text_extract_limit config
                 then firstn (Z.to_nat (text_extract_limit config)) text
                 else firstn (length text - Z.to_nat (- text_extract_limit config)) text)),
     tr ++ [(summary_request config text doc_type, ChatFailure e)]).
Proof.
  intros Htext Hfail.
  assert (Hstrip : Py.strip text <> []).
  { intros Hnil. apply strip_nil_iff in Hnil.
    apply List.Exists_exists in Htext. destruct Htext as (c & Hin & Hc).
    pose proof (proj1 (List.Forall_forall _ _) Hnil c Hin) as Hspace. congruence. }
  rewrite summarize_call by exact Hstrip. rewrite Hfail.
  unfold original_content, Py.slice_to.
  destruct (0 <=? text_extract_limit config) eqn:E; [reflexivity |].
  replace (Z.to_nat (Z.of_nat (length text) + text_extract_limit config))
    with (length text - Z.to_nat (- text_extract_limit config))%nat by lia.
  reflexivity.
Qed.

(** C5.  On a text that is empty or made of whitespace only the adapter
    returns the fixed message "No extractable text content found." and
    makes no call to the service: the trace of calls is left as it was. *)
Theorem blank_text_short_circuits (text doc_type : list N) (tr : trace) :
  text = [] \/ Forall (fun c => Py.isspace c = true) text ->
  _clean_and_summarize_text ollama config text doc_type tr
  = (Return (Py.lit "No extractable text content found."), tr)
  /\ calls_made (_clean_and_summarize_text ollama config text doc_type) tr = [].
Proof.
  intros H.
  assert (Hblank : Forall (fun c => Py.isspace c = true) text).
  { destruct H as [-> | H]; [constructor | exact H]. }
  unfold calls_made. rewrite summarize_blank by exact Hblank. split; [reflexivity |].
  simpl. rewrite <- (app_nil_r tr) at 2. apply skipn_length_app.
Qed.

End Summarization.

(** With a limit of 5 characters and the service down, an 11-character text
    comes back cut after its fifth character. *)
Lemma summarization_failure_degrades_witness :
  _clean_and_summarize_text Sample.down Cases.short_config (Py.lit "hello world")
    (Py.lit "TXT") []
  = (Return (Py.lit "Original content:" ++ nl ++ nl
             ++ (if 0 <=? text_extract_limit Cases.short_config
                 then firstn (Z.to_nat (text_extract_limit Cases.short_config))
                        (Py.lit "hello world")
                 else firstn (length (Py.lit "hello world")
                              - Z.to_nat (- text_extract_limit Cases.short_config))
                        (Py.lit "hello world"))),
     [] ++ [(summary_request Cases.short_config (Py.lit "hello world") (Py.lit "TXT"),
             ChatFailure Sample.refused)]).
Proof.
  apply (summarization_failure_degrades Sample.down Cases.short_config
           (Py.lit "hello world") (Py.lit "TXT") [] Sample.refused).
  - apply Exists_cons_hd. vm_compute. reflexivity.
  - reflexivity.
Defined.

Example fallback_is_cut_at_the_limit :
  fst (_clean_and_summarize_text Sample.down Cases.short_config (Py.lit "hello world")
         (Py.lit "TXT") [])
  = Return (Py.lit "Original content:" ++ nl ++ nl ++ Py.lit "hello").
Proof. vm_compute. reflexivity. Qed.

(** C4 as stated fails twice.  A text of one space is not empty, the service
    fails on its request, and the adapter returns the fixed message, not
    the fallback.  With a limit of -1 the fallback for "hello" carries
    "hell", which is not the first -1 characters of the text. *)
Lemma fallback_differs_from_first_characters :
  (Py.lit " " <> []
   /\ Sample.down 0%nat (summary_request Sample.config (Py.lit " ") (Py.lit "TXT"))
      = ChatFailure Sample.refused
   /\ fst (_clean_and_summarize_text Sample.down Sample.config (Py.lit " ") (Py.lit "TXT") [])
      = Return (Py.lit "No extractable text content found."))
  /\ (fst (_clean_and_summarize_text Sample.down Cases.negative_config (Py.lit "hello")
             (Py.lit "TXT") [])
      = Return (Py.lit "Original content:" ++ nl ++ nl ++ Py.lit "hell")
      /\ Py.lit "hell"
         <> firstn (Z.to_nat (text_extract_limit Cases.negative_config)) (Py.lit "hello")).
Proof.
  split; [split; [| split] | split]; vm_compute; try reflexivity; discriminate.
Qed.

Lemma blank_text_short_circuits_witness :
  _clean_and_summarize_text Sample.answering Sample.config (Py.lit "  ") (Py.lit "PDF") []
  = (Return (Py.lit "No extractable text content found."), [])
  /\ calls_made (_clean_and_summarize_text Sample.answering Sample.config (Py.lit "  ") (Py.lit "PDF")) [] = [].
Proof.
  apply (blank_text_short_circuits Sample.answering Sample.config (Py.lit "  ") (Py.lit "PDF") []).
  right. repeat constructor.
Defined.

(** ** The format validator *)

Section Validation.

Context `{rt : Runtime}.
Variable config : ProcessingConfig.

(** Once the extension and the declared content type are accepted, the
    outcome is decided by the size and then by the filename. *)
Lemma validate_after_type_checks (filename : list N) (file_bytes : list byte)
    (file_mime : list N) :
  str_lower (Path_suffix filename) ∈ allowed_extensions config ->
  _get_expected_mime_types config (str_lower (Path_suffix filename)) = ∅
  \/ file_mime ∈ _get_expected_mime_types config (str_lower (Path_suffix filename)) ->
  _validate_file config filename file_bytes file_mime
  = if max_file_size config <? Py.len file_bytes then
      Raise (FileTooLarge (Py.len file_bytes) (max_file_size config))
    else if Py.contains (Py.lit "..") filename || Py.startswith (Py.lit "/") filename then
      Raise UnsafeFilename
    else Return (_get_file_info filename file_bytes file_mime).
Proof.
  intros Hext Hmime. unfold _validate_file, _get_file_info.
  cbn [info_extension info_size info_mime_type].
  rewrite (bool_decide_eq_true_2 _ Hext). cbn [negb].
  destruct Hmime as [Hmime | Hmime].
  - rewrite (bool_decide_eq_true_2 _ Hmime). reflexivity.
  - rewrite (bool_decide_eq_true_2 _ Hmime). cbn [negb]. rewrite andb_false_r. reflexivity.
Qed.



(** The first two checks decide alone when they fail. *)
Lemma validate_unsupported (filename : list N) (file_bytes : list byte) (file_mime : list N) :
  str_lower (Path_suffix filename) ∉ allowed_extensions config ->
  _validate_file config filename file_bytes file_mime
  = Raise (UnsupportedExtension (str_lower (Path_suffix filename))).
Proof.
  intros H. unfold _validate_file, _get_file_info.
  cbn [info_extension info_size info_mime_type].
  rewrite (bool_decide_eq_false_2 _ H). reflexivity.
Qed.

Lemma validate_mismatch (filename : list N) (file_bytes : list byte) (file_mime : list N) :
  str_lower (Path_suffix filename) ∈ allowed_extensions config ->
  _get_expected_mime_types config (str_lower (Path_suffix filename)) <> ∅ ->
  file_mime ∉ _get_expected_mime_types config (str_lower (Path_suffix filename)) ->
  _validate_file config filename file_bytes file_mime
  = Raise (ContentTypeMismatch (str_lower (Path_suffix filename))
             (_get_expected_mime_types config (str_lower (Path_suffix filename)))
             file_mime).
Proof.
  intros Hext Hset Hmime. unfold _validate_file, _get_file_info.
  cbn [info_extension info_size info_mime_type].
  rewrite (bool_decide_eq_true_2 _ Hext), (bool_decide_eq_false_2 _ Hset),
    (bool_decide_eq_false_2 _ Hmime).
  reflexivity.
Qed.



End Validation.

(** Membership in a concrete set, settled by evaluating its decision. *)
Ltac by_decision :=
  match goal with
  | |- ?P => apply (bool_decide_eq_true_1 P); vm_compute; reflexivity
  end.





(** ** The image path *)

Section Image.

Variable ollama : service.
Variable config : ProcessingConfig.

(** C3, as the code has it.  A failure of the vision-model call is not
    turned into degraded output: the image extraction path raises it to its
    caller, as a [ValueError] whose message is "Failed to process image: "
    followed by the text of the failure, and makes no further call. *)
Theorem vision_failure_is_raised (image_bytes : list byte) (tr : trace) (e : exn) :
  ollama (length tr) (vision_request config image_bytes) = ChatFailure e ->
  _extract_content_from_image_bytes ollama config image_bytes tr
  = (Raise (ValueError (Py.lit "Failed to process image: " ++ exn_str e)),
     tr ++ [(vision_request config image_bytes, ChatFailure e)]).
Proof.
  intros H. unfold _extract_content_from_image_bytes, try_except, bind, client_chat.
  rewrite H. reflexivity.
Qed.

(** C10, as the code has it.  When the vision call answers with a report
    that is not blank, the image path makes exactly two calls, in this
    order: the vision model on the prompt with the base64 image attached,
    then the text model on the summarization prompt built from the report;
    it returns the text model's answer, or the "Original content:" fallback
    built from the report when the second call fails.  When the report is
    empty or whitespace only, the vision call is the only call and the
    fixed message "No extractable text content found." is returned. *)
Theorem image_pipeline_calls (image_bytes : list byte) (tr : trace) (report : list N) :
  ollama (length tr) (vision_request config image_bytes) = ChatResponse report ->
  req_messages (vision_request config image_bytes)
  = [{| msg_role := Py.lit "user"; msg_content := vision_prompt;
        msg_images := Some [Py.byte_values (Base64.b64encode image_bytes)] |}]
  /\ (Py.strip report <> [] ->
      _extract_content_from_image_bytes ollama config image_bytes tr
      = (Return match ollama (S (length tr))
                        (summary_request config report (Py.lit "image")) with
                | ChatResponse summary => summary
                | ChatFailure _ => original_content config report
                end,
         tr ++ [(vision_request config image_bytes, ChatResponse report);
                (summary_request config report (Py.lit "image"),
                 ollama (S (length tr))
                   (summary_request config report (Py.lit "image")))]))
  /\ (Py.strip report = [] ->
      _extract_content_from_image_bytes ollama config image_bytes tr
      = (Return (Py.lit "No extractable text content found."),
         tr ++ [(vision_request config image_bytes, ChatResponse report)])).
Proof.
  intros H. split; [reflexivity |].
  unfold _extract_content_from_image_bytes, try_except, bind, client_chat.
  rewrite H. split; intros Hreport.
  - rewrite summarize_call by exact Hreport.
    rewrite length_app, Nat.add_1_r, <- app_assoc. reflexivity.
  - apply strip_nil_iff in Hreport. rewrite summarize_blank by exact Hreport.
    reflexivity.
Qed.

End Image.

(** C3 as stated fails: with the service down, the image path raises. *)
Lemma vision_failure_raised_on_sample :
  Sample.down 0%nat (vision_request Sample.config Sample.image_bytes)
  = ChatFailure Sample.refused
  /\ fst (_extract_content_from_image_bytes Sample.down Sample.config Sample.image_bytes [])
     = Raise (ValueError (Py.lit "Failed to process image: Connection refused"))
  /\ ~ returned (fst (_extract_content_from_image_bytes Sample.down Sample.config
                        Sample.image_bytes [])).
Proof.
  split; [reflexivity |].
  split; [vm_compute; reflexivity |].
  intros [text H]. vm_compute in H. discriminate.
Qed.

Lemma vision_failure_is_raised_witness :
  _extract_content_from_image_bytes Sample.down Sample.config Sample.image_bytes []
  = (Raise (ValueError (Py.lit "Failed to process image: " ++ exn_str Sample.refused)),
     [] ++ [(vision_request Sample.config Sample.image_bytes, ChatFailure Sample.refused)]).
Proof.
  apply (vision_failure_is_raised Sample.down Sample.config Sample.image_bytes []
           Sample.refused).
  reflexivity.
Defined.

(** C10 as stated fails: a vision answer without text ends the image path
    after one call, and successfully. *)
Lemma silent_vision_single_call :
  _extract_content_from_image_bytes Sample.silent Sample.config Sample.image_bytes []
  = (Return (Py.lit "No extractable text content found."),
     [(vision_request Sample.config Sample.image_bytes, ChatResponse [])]).
Proof. vm_compute. reflexivity. Qed.

(** The two calls on a sample image whose report the text model cannot
    summarize: the result is the fallback built from the report. *)
Lemma image_pipeline_calls_witness :
  _extract_content_from_image_bytes Sample.vision_only Sample.config Sample.image_bytes []
  = (Return (original_content Sample.config (Py.lit "A red square.")),
     [(vision_request Sample.config Sample.image_bytes,
       ChatResponse (Py.lit "A red square."));
      (summary_request Sample.config (Py.lit "A red square.") (Py.lit "image"),
       ChatFailure Sample.refused)]).
Proof.
  apply (proj1 (proj2 (image_pipeline_calls Sample.vision_only Sample.config
                         Sample.image_bytes [] (Py.lit "A red square.") eq_refl))).
  vm_compute. discriminate.
Defined.

(** ** The PDF page loop *)

Lemma pdf_page_loop_shape (pages : list (list N)) (page_num : nat) (text : list N) :
  pdf_page_loop page_num pages text
  = text
    ++ concat
         (List.map
            (fun '(n, page_text) => page_header n ++ page_text)
            (List.filter (fun '(_, page_text) => negb (Py.py_not page_text))
               (enumerate page_num pages))).
Proof.
  revert page_num text.
  induction pages as [|page_text rest IH]; intros page_num text.
  - cbn. rewrite app_nil_r. reflexivity.
  - cbn [pdf_page_loop enumerate List.filter].
    destruct page_text as [|c page_text]; cbn [Py.py_not negb List.map concat].
    + apply IH.
    + rewrite IH, <- !app_assoc. reflexivity.
Qed.

Lemma startswith_before_newline (p u rest : list N) :
  ~ In 10%N p ->
  Py.startswith p (u ++ 10%N :: rest) = Py.startswith p u.
Proof.
  revert u. induction p as [|d p IH]; intros u Hp; [reflexivity |].
  destruct u as [|c u]; simpl.
  - destruct (N.eqb_spec d 10) as [-> | _]; [| reflexivity].
    exfalso. apply Hp. left. reflexivity.
  - rewrite IH; [reflexivity |]. intros H. apply Hp. right. exact H.
Qed.

(** A pattern without line feed cannot straddle a line feed. *)
Lemma occurrences_across_newline (p u rest : list N) :
  p <> [] -> ~ In 10%N p ->
  occurrences p (u ++ 10%N :: rest) = (occurrences p u + occurrences p rest)%nat.
Proof.
  intros Hne Hp. induction u as [|c u IH].
  - simpl app. cbn [occurrences].
    rewrite <- (app_nil_l (10%N :: rest)) at 1.
    rewrite startswith_before_newline by exact Hp.
    destruct p; [contradiction | reflexivity].
  - change ((c :: u) ++ 10%N :: rest) with (c :: (u ++ 10%N :: rest)).
    cbn [occurrences].
    change (c :: (u ++ 10%N :: rest)) with ((c :: u) ++ 10%N :: rest).
    rewrite startswith_before_newline by exact Hp.
    rewrite IH. lia.
Qed.

(** The gathered text, cut at the extraction limit, is what the PDF
    extractor hands to the summarization adapter. *)
Lemma extract_pdf_on_pages `{rt : Runtime} (ollama : service) (config : ProcessingConfig)
    (pdf_bytes : list byte) (pages : list (list N)) (tr : trace) :
  fitz_page_texts pdf_bytes = Return pages ->
  _extract_text_from_pdf_bytes ollama config pdf_bytes tr
  = _clean_and_summarize_text ollama config
      (Py.slice_to (text_extract_limit config) (pdf_text pages)) (Py.lit "PDF") tr.
Proof.
  intros Hpages.
  unfold _extract_text_from_pdf_bytes, try_except, bind, lift, ret. rewrite Hpages.
  destruct (summarize_returns ollama config
              (Py.slice_to (text_extract_limit config) (pdf_text pages))
              (Py.lit "PDF") tr) as [text H].
  destruct (_clean_and_summarize_text _ _ _ _ tr) as [[text' | e] tr'];
    simpl in H; [reflexivity | discriminate].
Qed.

Lemma slice_to_all {A : Type} (n : Z) (s : list A) :
  Py.len s <= n -> Py.slice_to n s = s.
Proof.
  intros H. unfold Py.len in H. rewrite slice_to_nonneg by lia.
  apply firstn_all2. lia.
Qed.

Lemma pdf_text_blocks (pages : list (list N)) :
  pdf_text pages
  = concat
      (List.map
         (fun '(page_num, page_text) =>
            nl ++ Py.lit "--- Page " ++ Py.str_of_int (Z.of_nat page_num + 1)
            ++ Py.lit " ---" ++ nl ++ page_text)
         (List.filter (fun '(_, page_text) => negb (Py.py_not page_text))
            (enumerate 0 pages))).
Proof.
  unfold pdf_text. rewrite pdf_page_loop_shape. simpl app.
  f_equal. apply map_ext. intros [n t]. unfold page_header.
  rewrite <- !app_assoc. reflexivity.
Qed.

Lemma occurrences_in_two_blocks (page1 page3 : list N) :
  occurrences (Py.lit "--- Page")
    (nl ++ Py.lit "--- Page 1 ---" ++ nl ++ page1
     ++ nl ++ Py.lit "--- Page 3 ---" ++ nl ++ page3)
  = (2 + occurrences (Py.lit "--- Page") page1
     + occurrences (Py.lit "--- Page") page3)%nat.
Proof.
  change (nl ++ Py.lit "--- Page 1 ---" ++ nl ++ page1
          ++ nl ++ Py.lit "--- Page 3 ---" ++ nl ++ page3)
    with ([] ++ 10%N :: (Py.lit "--- Page 1 ---"
          ++ 10%N :: (page1 ++ 10%N :: (Py.lit "--- Page 3 ---" ++ 10%N :: page3)))).
  assert (Hne : Py.lit "--- Page" <> []) by (vm_compute; discriminate).
  assert (Hnl : ~ In 10%N (Py.lit "--- Page")).
  { vm_compute. intros H.
    repeat (destruct H as [H | H]; [discriminate H |]). exact H. }
  rewrite !occurrences_across_newline by assumption.
  change (occurrences (Py.lit "--- Page") []) with 0%nat.
  change (occurrences (Py.lit "--- Page") (Py.lit "--- Page 1 ---")) with 1%nat.
  change (occurrences (Py.lit "--- Page") (Py.lit "--- Page 3 ---")) with 1%nat.
  lia.
Qed.

(** C8, as the code has it.  For a PDF that the reader opens, the extractor
    gathers, in page order, one block per page whose text is not empty and
    nothing for the other pages, a block being the header line
    "--- Page N ---", N the 1-based number of the page, followed by the
    page's text; it hands this text, cut at the extraction limit, to the
    summarization adapter, and its outcome is the adapter's.  With five
    pages of which only the first and the third carry text, and a limit the
    gathered text fits in, the extractor makes one call to the service, on
    the "Page 1" block followed by the "Page 3" block; "--- Page" occurs
    in that text twice, plus as often as the two page texts contain it
    themselves. *)
Theorem pdf_page_delimiters `{rt : Runtime} (ollama : service) (config : ProcessingConfig)
    (pdf_bytes : list byte) (pages : list (list N)) (tr : trace) :
  fitz_page_texts pdf_bytes = Return pages ->
  _extract_text_from_pdf_bytes ollama config pdf_bytes tr
  = _clean_and_summarize_text ollama config
      (Py.slice_to (text_extract_limit config)
         (concat
            (List.map
               (fun '(page_num, page_text) =>
                  nl ++ Py.lit "--- Page " ++ Py.str_of_int (Z.of_nat page_num + 1)
                  ++ Py.lit " ---" ++ nl ++ page_text)
               (List.filter (fun '(_, page_text) => negb (Py.py_not page_text))
                  (enumerate 0 pages)))))
      (Py.lit "PDF") tr
  /\ (forall page1 page3 : list N,
         pages = [page1; []; page3; []; []] ->
         page1 <> [] -> page3 <> [] ->
         Py.len (nl ++ Py.lit "--- Page 1 ---" ++ nl ++ page1
                 ++ nl ++ Py.lit "--- Page 3 ---" ++ nl ++ page3)
         <= text_extract_limit config ->
         calls_made (_extract_text_from_pdf_bytes ollama config pdf_bytes) tr
         = [(summary_request config
               (nl ++ Py.lit "--- Page 1 ---" ++ nl ++ page1
                ++ nl ++ Py.lit "--- Page 3 ---" ++ nl ++ page3)
               (Py.lit "PDF"),
             ollama (length tr)
               (summary_request config
                  (nl ++ Py.lit "--- Page 1 ---" ++ nl ++ page1
                   ++ nl ++ Py.lit "--- Page 3 ---" ++ nl ++ page3)
                  (Py.lit "PDF")))]
         /\ occurrences (Py.lit "--- Page")
              (nl ++ Py.lit "--- Page 1 ---" ++ nl ++ page1
               ++ nl ++ Py.lit "--- Page 3 ---" ++ nl ++ page3)
            = (2 + occurrences (Py.lit "--- Page") page1
               + occurrences (Py.lit "--- Page") page3)%nat).
Proof.
  intros Hread. split.
  - rewrite (extract_pdf_on_pages ollama config pdf_bytes pages tr Hread), pdf_text_blocks.
    reflexivity.
  - intros page1 page3 -> H1 H3 Hfits. split; [| apply occurrences_in_two_blocks].
    unfold calls_made.
    rewrite (extract_pdf_on_pages ollama config pdf_bytes _ tr Hread).
    assert (Htext : pdf_text [page1; []; page3; []; []]
                    = nl ++ Py.lit "--- Page 1 ---" ++ nl ++ page1
                      ++ nl ++ Py.lit "--- Page 3 ---" ++ nl ++ page3).
    { destruct page1 as [|c1 page1]; [contradiction |].
      destruct page3 as [|c3 page3]; [contradiction |].
      reflexivity. }
    rewrite Htext, slice_to_all by exact Hfits.
    rewrite summarize_call.
    + cbn [snd]. rewrite skipn_length_app. reflexivity.
    + intros Hstrip. apply strip_nil_iff in Hstrip.
      change (nl ++ Py.lit "--- Page 1 ---" ++ nl ++ page1
              ++ nl ++ Py.lit "--- Page 3 ---" ++ nl ++ page3)
        with (10%N :: 45%N :: (Py.lit "-- Page 1 ---" ++ nl ++ page1
              ++ nl ++ Py.lit "--- Page 3 ---" ++ nl ++ page3)) in Hstrip.
      inversion Hstrip as [|? ? _ Hrest]. inversion Hrest as [|? ? Hdash _].
      vm_compute in Hdash. discriminate.
Qed.

(** A five-page PDF with "Alpha" on its first page and "Gamma" on its
    third, under the default limit of 10000 characters. *)
Lemma pdf_page_delimiters_witness :
  calls_made
    (_extract_text_from_pdf_bytes
       (rt := Cases.reading [Py.lit "Alpha"; []; Py.lit "Gamma"; []; []] Cases.blank_docx [])
       Sample.answering Sample.config (Py.blit "%PDF-1.7")) []
  = [(summary_request Sample.config
        (nl ++ Py.lit "--- Page 1 ---" ++ nl ++ Py.lit "Alpha"
         ++ nl ++ Py.lit "--- Page 3 ---" ++ nl ++ Py.lit "Gamma")
        (Py.lit "PDF"),
      Sample.answering (length (@nil (chat_request * chat_reply)))
        (summary_request Sample.config
           (nl ++ Py.lit "--- Page 1 ---" ++ nl ++ Py.lit "Alpha"
            ++ nl ++ Py.lit "--- Page 3 ---" ++ nl ++ Py.lit "Gamma")
           (Py.lit "PDF")))]
  /\ occurrences (Py.lit "--- Page")
       (nl ++ Py.lit "--- Page 1 ---" ++ nl ++ Py.lit "Alpha"
        ++ nl ++ Py.lit "--- Page 3 ---" ++ nl ++ Py.lit "Gamma")
     = (2 + occurrences (Py.lit "--- Page") (Py.lit "Alpha")
        + occurrences (Py.lit "--- Page") (Py.lit "Gamma"))%nat.
Proof.
  apply (proj2 (pdf_page_delimiters
                  (rt := Cases.reading [Py.lit "Alpha"; []; Py.lit "Gamma"; []; []]
                           Cases.blank_docx [])
                  Sample.answering Sample.config (Py.blit "%PDF-1.7")
                  [Py.lit "Alpha"; []; Py.lit "Gamma"; []; []] [] eq_refl)
           (Py.lit "Alpha") (Py.lit "Gamma")).
  - reflexivity.
  - vm_compute. discriminate.
  - vm_compute. discriminate.
  - vm_compute. discriminate.
Defined.

(** C8 as stated fails twice.  When the first page quotes a delimiter, the
    text the extractor hands on holds "--- Page" three times, not twice.
    With a limit of 5 characters the text handed on is cut inside the first
    header and holds no delimiter at all. *)
Lemma page_delimiters_not_exactly_two :
  (calls_made
     (_extract_text_from_pdf_bytes
        (rt := Cases.reading [Py.lit "see --- Page 9"; []; Py.lit "x"; []; []]
                 Cases.blank_docx [])
        Sample.answering Sample.config (Py.blit "%PDF-1.7")) []
   = [(summary_request Sample.config
         (nl ++ Py.lit "--- Page 1 ---" ++ nl ++ Py.lit "see --- Page 9"
          ++ nl ++ Py.lit "--- Page 3 ---" ++ nl ++ Py.lit "x")
         (Py.lit "PDF"),
       ChatResponse (Py.lit "SUMMARY"))]
   /\ occurrences (Py.lit "--- Page")
        (nl ++ Py.lit "--- Page 1 ---" ++ nl ++ Py.lit "see --- Page 9"
         ++ nl ++ Py.lit "--- Page 3 ---" ++ nl ++ Py.lit "x")
      = 3%nat)
  /\ (calls_made
        (_extract_text_from_pdf_bytes
           (rt := Cases.reading [Py.lit "Alpha"; []; Py.lit "Gamma"; []; []]
                    Cases.blank_docx [])
           Sample.answering Cases.short_config (Py.blit "%PDF-1.7")) []
      = [(summary_request Cases.short_config (nl ++ Py.lit "--- ") (Py.lit "PDF"),
          ChatResponse (Py.lit "SUMMARY"))]
      /\ occurrences (Py.lit "--- Page") (nl ++ Py.lit "--- ") = 0%nat).
Proof. repeat split; vm_compute; reflexivity. Qed.

(** On that sample the delimiter occurs twice. *)
Example two_delimiters_on_sample :
  occurrences (Py.lit "--- Page") (pdf_text [Py.lit "Alpha"; []; Py.lit "Gamma"; []; []])
  = 2%nat.
Proof. vm_compute. reflexivity. Qed.

(** The header of the twelfth page. *)
Example page_header_is_one_based :
  page_header 11 = nl ++ Py.lit "--- Page 12 ---" ++ nl.
Proof. vm_compute. reflexivity. Qed.

(** A document with the paragraph "Hello" and one table row of cells "A"
    and "B". *)
Example docx_text_on_sample :
  docx_text {| paragraphs := [Py.lit "Hello"; []];
               tables := [[[Py.lit "A"; []; Py.lit "B"]]] |}
  = Py.lit "Hello" ++ nl ++ Py.lit "Table row: A | B" ++ nl.
Proof. vm_compute. reflexivity. Qed.

(** ** Decoding plain text *)

Section Decoding.

Context `{rt : Runtime}.

Lemma decode_loop_first (encs : list encoding) (txt_bytes : list byte) :
  match decode_loop encs txt_bytes with
  | Some text =>
    exists before encoding after,
      encs = before ++ encoding :: after
      /\ Forall (fun enc => bytes_decode enc txt_bytes = None) before
      /\ bytes_decode encoding txt_bytes = Some text
  | None => Forall (fun enc => bytes_decode enc txt_bytes = None) encs
  end.
Proof.
  induction encs as [|enc rest IH]; cbn [decode_loop].
  - constructor.
  - destruct (bytes_decode enc txt_bytes) as [text |] eqn:E.
    + exists [], enc, rest. split; [reflexivity |]. split; [constructor | exact E].
    + destruct (decode_loop rest txt_bytes) as [text |].
      * destruct IH as (before & encoding & after & -> & Hbefore & Hdec).
        exists (enc :: before), encoding, after.
        split; [reflexivity |]. split; [constructor; assumption | exact Hdec].
      * constructor; assumption.
Qed.

(** The decoded text is all the extractor depends on, and the extractor
    itself returns: the adapter it ends in never raises. *)
Lemma extract_txt_returns (ollama : service) (config : ProcessingConfig)
    (txt_bytes : list byte) (tr : trace) :
  _extract_text_from_txt_bytes ollama config txt_bytes tr
  = _clean_and_summarize_text ollama config
      (Py.slice_to (text_extract_limit config) (txt_decode txt_bytes)) (Py.lit "TXT") tr.
Proof.
  unfold _extract_text_from_txt_bytes, try_except, bind, ret.
  destruct (summarize_returns ollama config
              (Py.slice_to (text_extract_limit config) (txt_decode txt_bytes))
              (Py.lit "TXT") tr) as [text H].
  destruct (_clean_and_summarize_text _ _ _ _ tr) as [[text' | e] tr'];
    simpl in H; [reflexivity | discriminate].
Qed.

(** C9.  For every byte string the plain-text extractor decodes and goes
    on: its outcome is that of the summarization adapter on the decoded
    text, cut at the extraction limit, and it returns.  The decoded text is
    the decoding under the first of UTF-8, Latin-1, Windows-1252 and
    ISO-8859-1, tried in this order, that decodes without error; when all
    four fail, it is the permissive decoding that substitutes a placeholder
    for what is invalid. *)
Theorem txt_decode_first_success (ollama : service) (config : ProcessingConfig)
    (txt_bytes : list byte) (tr : trace) :
  exists text : list N,
    ((exists before encoding after,
         [utf_8; latin_1; windows_1252; iso_8859_1] = before ++ encoding :: after
         /\ Forall (fun enc => bytes_decode enc txt_bytes = None) before
         /\ bytes_decode encoding txt_bytes = Some text)
     \/ (Forall (fun enc => bytes_decode enc txt_bytes = None)
           [utf_8; latin_1; windows_1252; iso_8859_1]
         /\ text = bytes_decode_replace txt_bytes))
    /\ _extract_text_from_txt_bytes ollama config txt_bytes tr
       = _clean_and_summarize_text ollama config
           (Py.slice_to (text_extract_limit config) text) (Py.lit "TXT") tr
    /\ returned (fst (_extract_text_from_txt_bytes ollama config txt_bytes tr)).
Proof.
  exists (txt_decode txt_bytes). split; [| split].
  - pose proof (decode_loop_first encodings txt_bytes) as H.
    unfold txt_decode. destruct (decode_loop encodings txt_bytes) as [text |].
    + left. exact H.
    + right. split; [exact H | reflexivity].
  - apply extract_txt_returns.
  - rewrite extract_txt_returns. apply summarize_returns.
Qed.

End Decoding.

(** Under CPython's codecs Latin-1 accepts every byte string: the text is
    the UTF-8 reading when there is one and the Latin-1 reading otherwise. *)
Lemma cpython_txt_decode pdf_reader docx_reader disk (txt_bytes : list byte) :
  txt_decode (rt := CPython.runtime pdf_reader docx_reader disk) txt_bytes
  = match Py.utf8_strict txt_bytes with
    | Some text => text
    | None => Py.byte_values txt_bytes
    end.
Proof.
  unfold txt_decode, encodings. cbn [decode_loop bytes_decode CPython.runtime CPython.decode].
  destruct (Py.utf8_strict txt_bytes); reflexivity.
Qed.

Example txt_decode_utf8 :
  txt_decode (rt := Sample.runtime) [x63; x61; x66; xc3; xa9] = Py.lit "café".
Proof. vm_compute. reflexivity. Qed.

Example txt_decode_latin1 :
  txt_decode (rt := Sample.runtime) [x63; x61; x66; xe9] = [99; 97; 102; 233]%N.
Proof. vm_compute. reflexivity. Qed.

(** ** The batch entry points *)

Lemma str_eqb_eq (a b : list N) : Py.str_eqb a b = true <-> a = b.
Proof.
  revert b. induction a as [|x a IH]; intros [|y b]; simpl;
    try (split; [discriminate | discriminate]); [split; reflexivity |].
  rewrite andb_true_iff, N.eqb_eq, IH. split.
  - intros [-> ->]. reflexivity.
  - intros H. injection H as -> ->. split; reflexivity.
Qed.

Lemma dict_get_set {V : Type} (d : list (list N * V)) (k k' : list N) (v : V) :
  dict_get (dict_set d k v) k' = if Py.str_eqb k k' then Some v else dict_get d k'.
Proof.
  induction d as [|[k0 v0] d IH]; simpl.
  - reflexivity.
  - destruct (Py.str_eqb k0 k) eqn:E0; simpl.
    + apply str_eqb_eq in E0. subst k0. destruct (Py.str_eqb k k'); reflexivity.
    + rewrite IH. destruct (Py.str_eqb k0 k') eqn:E1; [| reflexivity].
      destruct (Py.str_eqb k k') eqn:E2; [| reflexivity].
      apply str_eqb_eq in E1, E2. subst. rewrite (proj2 (str_eqb_eq k' k') eq_refl) in E0.
      discriminate.
Qed.

(** The exception of the call [self.process_document_async(filename,
    file_bytes)]: the third parameter gets no argument. *)
Lemma process_document_async_two_arguments :
  Call.bind_positional "DocumentProcessor.process_document_async"
    process_document_async_params 2
  = Some (TypeError
            (Py.lit "DocumentProcessor.process_document_async() missing 1 required positional argument: 'file_mime'")).
Proof. vm_compute. reflexivity. Qed.

(** The exception of the call [self.process_single_file_async(filename,
    file_bytes)]: the method declares one parameter. *)
Lemma process_single_file_async_two_arguments :
  Call.bind_positional "DocumentProcessor.process_single_file_async"
    process_single_file_async_params 2
  = Some (TypeError
            (Py.lit "DocumentProcessor.process_single_file_async() takes 2 positional arguments but 3 were given")).
Proof. vm_compute. reflexivity. Qed.

(** Whatever the files are, [batch_process_documents] stores under every
    filename the message of that [TypeError]: no file is processed. *)
Lemma batch_process_documents_entries (file_data : list (list N * list byte))
    (filename : list N) :
  dict_get (batch_process_documents file_data) filename
  = if existsb (fun item => Py.str_eqb (fst item) filename) file_data
    then Some (Str (Py.lit "Error processing " ++ filename
                    ++ Py.lit ": DocumentProcessor.process_document_async() missing 1 required positional argument: 'file_mime'"))
    else None.
Proof.
  unfold batch_process_documents.
  change (@None batch_value) with (dict_get (@nil (list N * batch_value)) filename).
  generalize (@nil (list N * batch_value)) as results.
  induction file_data as [|[k b] rest IH]; intros results; [reflexivity |].
  cbn [fold_left existsb fst length].
  rewrite process_document_async_two_arguments, IH.
  destruct (existsb _ rest); [rewrite orb_true_r; reflexivity |].
  rewrite orb_false_r, dict_get_set.
  destruct (Py.str_eqb k filename) eqn:E; [| reflexivity].
  apply str_eqb_eq in E. subst k. reflexivity.
Qed.

Section ConcurrentBatch.

Context `{rt : Runtime}.
Variable ollama : service.
Variable config : ProcessingConfig.

(** On a batch with at least one file, [batch_process_documents_async]
    raises that [TypeError] while it builds its first task: no file is
    processed and no mapping is returned.  An empty batch gives an empty
    mapping. *)
Lemma batch_process_documents_async_outcome (file_data : list (list N * list byte))
    (tr : trace) :
  batch_process_documents_async ollama config file_data tr
  = match file_data with
    | [] => (Return [], tr)
    | _ :: _ =>
      (Raise (TypeError
                (Py.lit "DocumentProcessor.process_single_file_async() takes 2 positional arguments but 3 were given")),
       tr)
    end.
Proof.
  unfold batch_process_documents_async, bind, lift.
  destruct file_data as [|[filename file_bytes] rest]; [reflexivity |].
  cbn [create_tasks]. unfold call_process_single_file_async. cbn [length].
  rewrite process_single_file_async_two_arguments. reflexivity.
Qed.

End ConcurrentBatch.

(** C1, on the code.  For the batch of three files of the scenario, the
    second with an extension that is not allowed, the concurrent batch entry
    point returns no mapping at all: it raises a [TypeError] before any file
    is looked at.  Handed over one at a time through
    [process_single_file_async], as the chat front end does, the first and
    the third file give normal output and the second a validation error. *)
Theorem concurrent_batch_of_three_raises :
  batch_process_documents_async (rt := Sample.runtime) Sample.answering Sample.config
    Sample.three_files []
  = (Raise (TypeError
              (Py.lit "DocumentProcessor.process_single_file_async() takes 2 positional arguments but 3 were given")),
     [])
  /\ fst (process_single_file_async (rt := Sample.runtime) Sample.answering Sample.config
            (Sample.as_file "a.txt" "text/plain" "hello") [])
     = Return (Py.lit "SUMMARY")
  /\ fst (process_single_file_async (rt := Sample.runtime) Sample.answering Sample.config
            (Sample.as_file "b.exe" "application/octet-stream" "MZ") [])
     = Raise (UnsupportedExtension (Py.lit ".exe"))
  /\ fst (process_single_file_async (rt := Sample.runtime) Sample.answering Sample.config
            (Sample.as_file "c.txt" "text/plain" "world") [])
     = Return (Py.lit "SUMMARY").
Proof. repeat split; vm_compute; reflexivity. Qed.

(** C2, on the code.  For the one-file batch [{"a.txt": b"hello"}], whose
    file the pipeline processes to a summary when it is given the file's
    content type, [batch_process_documents] stores an error string: the
    message of the [TypeError] of its own call, which leaves out the content
    type. *)
Theorem sequential_batch_stores_call_error :
  batch_process_documents [(Py.lit "a.txt", Py.blit "hello")]
  = [(Py.lit "a.txt",
      Str (Py.lit "Error processing a.txt: DocumentProcessor.process_document_async() missing 1 required positional argument: 'file_mime'"))]
  /\ fst (process_document_async (rt := Sample.runtime) Sample.answering Sample.config
            (Py.lit "a.txt") (Py.blit "hello") (Py.lit "text/plain") [])
     = Return (Py.lit "SUMMARY").
Proof. split; vm_compute; reflexivity. Qed.

(** The pipeline on a sample picture: the extension selects the image path,
    which calls the service twice. *)
Example process_png_on_sample :
  process_document_async (rt := Sample.runtime) Sample.answering Sample.config
    (Py.lit "scan.PNG") Sample.image_bytes (Py.lit "image/png") []
  = (Return (Py.lit "SUMMARY"),
     [(vision_request Sample.config Sample.image_bytes, ChatResponse (Py.lit "SUMMARY"));
      (summary_request Sample.config (Py.lit "SUMMARY") (Py.lit "image"),
       ChatResponse (Py.lit "SUMMARY"))]).
Proof. vm_compute. reflexivity. Qed.

(** The same request with the service down: the failure of the vision call
    reaches the caller of the pipeline. *)
Example process_png_service_down :
  fst (process_document_async (rt := Sample.runtime) Sample.down Sample.config
         (Py.lit "scan.png") Sample.image_bytes (Py.lit "image/png") [])
  = Raise (ValueError (Py.lit "Failed to process image: Connection refused")).
Proof. vm_compute. reflexivity. Qed.

(** An empty batch is the one input on which the concurrent entry point
    returns. *)
Example concurrent_batch_of_none :
  batch_process_documents_async (rt := Sample.runtime) Sample.answering Sample.config [] []
  = (Return [], []).
Proof. reflexivity. Qed.

(** * Further properties of the pipeline *)

(** ** The effect monad *)

Lemma try_except_reraise {A : Type} (m : M A) (tr : trace) :
  try_except m (fun e => raise e) tr = m tr.
Proof. unfold try_except, raise. destruct (m tr) as [[a | e] tr']; reflexivity. Qed.

Lemma bind_ret {A : Type} (m : M A) (tr : trace) :
  bind m (fun a => ret a) tr = m tr.
Proof. unfold bind, ret. destruct (m tr) as [[a | e] tr']; reflexivity. Qed.

Lemma calls_made_app {A : Type} (m : M A) (tr new : trace) :
  snd (m tr) = tr ++ new -> calls_made m tr = new.
Proof. intros H. unfold calls_made. rewrite H. apply skipn_length_app. Qed.

(** ** The summarization adapter, in full *)

Section Adapter.

Variable ollama : service.
Variable config : ProcessingConfig.

(** X1.  The adapter never raises and makes at most one call.  Either the
    text is blank, no call is made and the fixed message is returned; or
    exactly one call is made, to the text model with thinking on and one
    user message without image, and the adapter returns the content of the
    answer unchanged, or the "Original content:" fallback when the call
    fails. *)
Theorem adapter_outcomes (text doc_type : list N) (tr : trace) :
  (Forall (fun c => Py.isspace c = true) text
   /\ _clean_and_summarize_text ollama config text doc_type tr
      = (Return (Py.lit "No extractable text content found."), tr))
  \/ (exists reply req,
         req = {| req_model := ollama_model config;
                  req_messages :=
                    [{| msg_role := Py.lit "user";
                        msg_content := summary_prompt doc_type text;
                        msg_images := None |}];
                  req_think := true;
                  req_temperature := temperature config |}
         /\ reply = ollama (length tr) req
         /\ _clean_and_summarize_text ollama config text doc_type tr
            = (Return match reply with
                      | ChatResponse content => content
                      | ChatFailure _ =>
                        Py.lit "Original content:" ++ nl ++ nl
                        ++ Py.slice_to (text_extract_limit config) text
                      end,
               tr ++ [(req, reply)])).
Proof.
  destruct (strip_cases text) as [H | H].
  - left. split; [exact H | apply summarize_blank; exact H].
  - right. eexists _, _. split; [reflexivity |]. split; [reflexivity |].
    apply summarize_call. exact H.
Qed.

Lemma summarize_shape (text doc_type : list N) (tr : trace) :
  exists summary new,
    _clean_and_summarize_text ollama config text doc_type tr = (Return summary, tr ++ new)
    /\ (length new <= 1)%nat.
Proof.
  destruct (strip_cases text) as [H | H].
  - exists no_extractable_text, []. rewrite app_nil_r. split; [apply summarize_blank; exact H | simpl; lia].
  - eexists _, [_]. split; [apply summarize_call; exact H | simpl; lia].
Qed.

(** Wrapping the adapter in a [try] changes nothing: there is nothing to
    catch. *)
Lemma try_summarize (text doc_type : list N) (handler : exn -> M (list N))
    (tr : trace) :
  try_except
    (bind (_clean_and_summarize_text ollama config text doc_type) (fun result => ret result))
    handler tr
  = _clean_and_summarize_text ollama config text doc_type tr.
Proof.
  unfold try_except. rewrite bind_ret.
  destruct (summarize_shape text doc_type tr) as (summary & new & -> & _). reflexivity.
Qed.

End Adapter.

(** ** The validator, in full *)

Section ValidatorCases.

Context `{rt : Runtime}.
Variable config : ProcessingConfig.

(** What an accepted file is known to satisfy about its extension, and what
    the record returned for it holds. *)
Lemma validate_returns_extension (filename : list N) (file_bytes : list byte)
    (file_mime : list N) (info : file_info) :
  _validate_file config filename file_bytes file_mime = Return info ->
  str_lower (Path_suffix filename) ∈ allowed_extensions config
  /\ info = {| info_filename := filename;
               info_extension := str_lower (Path_suffix filename);
               info_size := Z.of_nat (length file_bytes);
               info_mime_type := file_mime |}.
Proof.
  intros H.
  destruct (decide (str_lower (Path_suffix filename) ∈ allowed_extensions config))
    as [Hext | Hext]; [| rewrite validate_unsupported in H by exact Hext; discriminate].
  split; [exact Hext |]. revert H. unfold _validate_file, _get_file_info.
  repeat match goal with
         | |- (if ?c then _ else _) = _ -> _ => destruct c
         end;
    intros H; try discriminate H; injection H as <-; reflexivity.
Qed.

(** X2.  Validation accepts a file exactly when all four checks pass: the
    lower-cased suffix of its name is an allowed extension; the content
    types configured for that extension are none at all or include the
    declared one; its size is at most the maximum; its name neither
    contains [..] nor starts with [/].  The record returned then holds the
    name, that extension, the byte length and the declared content type. *)
Theorem validation_accepts_iff (filename : list N) (file_bytes : list byte)
    (file_mime : list N) (info : file_info) :
  _validate_file config filename file_bytes file_mime = Return info
  <-> (str_lower (Path_suffix filename) ∈ allowed_extensions config
       /\ (_get_expected_mime_types config (str_lower (Path_suffix filename)) = ∅
           \/ file_mime ∈ _get_expected_mime_types config (str_lower (Path_suffix filename)))
       /\ Py.len file_bytes <= max_file_size config
       /\ Py.contains (Py.lit "..") filename = false
       /\ Py.startswith (Py.lit "/") filename = false
       /\ info = {| info_filename := filename;
                    info_extension := str_lower (Path_suffix filename);
                    info_size := Z.of_nat (length file_bytes);
                    info_mime_type := file_mime |}).
Proof.
  split.
  - intros H.
    destruct (decide (str_lower (Path_suffix filename) ∈ allowed_extensions config))
      as [Hext | Hext]; [| rewrite validate_unsupported in H by exact Hext; discriminate].
    destruct (decide (_get_expected_mime_types config (str_lower (Path_suffix filename)) = ∅))
      as [Hset | Hset].
    + rewrite validate_after_type_checks in H by (try left; assumption).
      destruct (max_file_size config <? Py.len file_bytes) eqn:Hsize; [discriminate |].
      destruct (Py.contains (Py.lit "..") filename) eqn:Hdots; [discriminate |].
      destruct (Py.startswith (Py.lit "/") filename) eqn:Hroot; [discriminate |].
      injection H as <-. repeat split; try assumption; try reflexivity; [left; exact Hset | lia].
    + destruct (decide (file_mime
                        ∈ _get_expected_mime_types config (str_lower (Path_suffix filename))))
        as [Hmime | Hmime]; [| rewrite validate_mismatch in H by assumption; discriminate].
      rewrite validate_after_type_checks in H by (try right; assumption).
      destruct (max_file_size config <? Py.len file_bytes) eqn:Hsize; [discriminate |].
      destruct (Py.contains (Py.lit "..") filename) eqn:Hdots; [discriminate |].
      destruct (Py.startswith (Py.lit "/") filename) eqn:Hroot; [discriminate |].
      injection H as <-. repeat split; try assumption; try reflexivity; [right; exact Hmime | lia].
  - intros (Hext & Hmime & Hsize & Hdots & Hroot & ->).
    rewrite validate_after_type_checks by assumption.
    rewrite Hdots, Hroot.
    destruct (max_file_size config <? Py.len file_bytes) eqn:E; [lia | reflexivity].
Qed.


(** Every error of the validator is a [ValueError]. *)
Lemma validate_raises_value_error (filename : list N) (file_bytes : list byte)
    (file_mime : list N) (e : exn) :
  _validate_file config filename file_bytes file_mime = Raise e ->
  exn_class e = "ValueError"%string.
Proof.
  unfold _validate_file.
  repeat match goal with
         | |- (if ?c then _ else _) = _ -> _ => destruct c
         end;
    intros H; try discriminate H; injection H as <-; reflexivity.
Qed.

End ValidatorCases.

(** ** The extractors, in full *)

Section Extractors.

Context `{rt : Runtime}.
Variable ollama : service.
Variable config : ProcessingConfig.

Lemma extract_pdf_cases (pdf_bytes : list byte) (tr : trace) :
  _extract_text_from_pdf_bytes ollama config pdf_bytes tr
  = match fitz_page_texts pdf_bytes with
    | Raise e => (Raise (ValueError (Py.lit "Failed to process PDF: " ++ exn_str e)), tr)
    | Return pages =>
      _clean_and_summarize_text ollama config
        (Py.slice_to (text_extract_limit config) (pdf_text pages)) (Py.lit "PDF") tr
    end.
Proof.
  destruct (fitz_page_texts pdf_bytes) as [pages | e] eqn:E.
  - apply extract_pdf_on_pages. exact E.
  - unfold _extract_text_from_pdf_bytes, try_except, bind, lift, raise. rewrite E. reflexivity.
Qed.

Lemma extract_docx_cases (docx_bytes : list byte) (tr : trace) :
  _extract_text_from_docx_bytes ollama config docx_bytes tr
  = match docx_Document docx_bytes with
    | Raise e => (Raise (ValueError (Py.lit "Failed to process DOCX: " ++ exn_str e)), tr)
    | Return doc =>
      _clean_and_summarize_text ollama config
        (Py.strip (Py.slice_to (text_extract_limit config) (docx_text doc)))
        (Py.lit "DOCX") tr
    end.
Proof.
  destruct (docx_Document docx_bytes) as [doc | e] eqn:E;
    unfold _extract_text_from_docx_bytes.
  - rewrite <- (try_summarize ollama config _ _
                  (fun e => raise (ValueError (Py.lit "Failed to process DOCX: " ++ exn_str e)))).
    unfold try_except, bind, lift. rewrite E. reflexivity.
  - unfold try_except, bind, lift, raise. rewrite E. reflexivity.
Qed.

Lemma extract_image_cases (image_bytes : list byte) (tr : trace) :
  _extract_content_from_image_bytes ollama config image_bytes tr
  = match ollama (length tr) (vision_request config image_bytes) with
    | ChatFailure e =>
      (Raise (ValueError (Py.lit "Failed to process image: " ++ exn_str e)),
       tr ++ [(vision_request config image_bytes, ChatFailure e)])
    | ChatResponse report =>
      _clean_and_summarize_text ollama config report (Py.lit "image")
        (tr ++ [(vision_request config image_bytes, ChatResponse report)])
    end.
Proof.
  unfold _extract_content_from_image_bytes, try_except, bind, client_chat, raise, ret.
  destruct (ollama (length tr) (vision_request config image_bytes)) as [report | e];
    [| reflexivity].
  destruct (summarize_shape ollama config report (Py.lit "image")
              (tr ++ [(vision_request config image_bytes, ChatResponse report)]))
    as (summary & new & -> & _).
  reflexivity.
Qed.

(** What every extractor does to the trace, and what it can raise. *)
Lemma run_processor_shape (p : processor) (file_bytes : list byte) (tr : trace) :
  exists result new,
    run_processor ollama config p file_bytes tr = (result, tr ++ new)
    /\ (length new <= 2)%nat
    /\ (p <> image_processor -> (length new <= 1)%nat)
    /\ (forall e, result = Raise e -> exn_class e = "ValueError"%string).
Proof.
  destruct p; cbn [run_processor].
  - rewrite extract_pdf_cases. destruct (fitz_page_texts file_bytes) as [pages | e].
    + destruct (summarize_shape ollama config
                  (Py.slice_to (text_extract_limit config) (pdf_text pages)) (Py.lit "PDF") tr)
        as (summary & new & -> & Hlen).
      exists (Return summary), new. repeat split; try lia. discriminate.
    + eexists _, []. rewrite app_nil_r. split; [reflexivity |].
      repeat split; simpl; try lia. intros e' H. injection H as <-. reflexivity.
  - rewrite extract_docx_cases. destruct (docx_Document file_bytes) as [doc | e].
    + destruct (summarize_shape ollama config
                  (Py.strip (Py.slice_to (text_extract_limit config) (docx_text doc)))
                  (Py.lit "DOCX") tr)
        as (summary & new & -> & Hlen).
      exists (Return summary), new. repeat split; try lia. discriminate.
    + eexists _, []. rewrite app_nil_r. split; [reflexivity |].
      repeat split; simpl; try lia. intros e' H. injection H as <-. reflexivity.
  - rewrite extract_txt_returns.
    destruct (summarize_shape ollama config
                (Py.slice_to (text_extract_limit config) (txt_decode file_bytes))
                (Py.lit "TXT") tr)
      as (summary & new & -> & Hlen).
    exists (Return summary), new. repeat split; try lia. discriminate.
  - rewrite extract_image_cases.
    destruct (ollama (length tr) (vision_request config file_bytes)) as [report | e].
    + destruct (summarize_shape ollama config report (Py.lit "image")
                  (tr ++ [(vision_request config file_bytes, ChatResponse report)]))
        as (summary & new & -> & Hlen).
      exists (Return summary), ([(vision_request config file_bytes, ChatResponse report)] ++ new).
      rewrite app_assoc. split; [reflexivity |].
      repeat split; try (rewrite length_app; simpl; lia); try congruence.
    + eexists _, [_]. split; [reflexivity |].
      repeat split; simpl; try lia; try congruence.
      intros e' H. injection H as <-. reflexivity.
Qed.

(** The pipeline is the validator followed by the extractor the extension
    selects. *)
Lemma process_document_async_steps (filename : list N) (file_bytes : list byte)
    (file_mime : list N) (tr : trace) :
  process_document_async ollama config filename file_bytes file_mime tr
  = if Py.py_not filename || Py.py_not file_bytes then (Raise InvalidInput, tr)
    else
      match _validate_file config filename file_bytes file_mime with
      | Raise e => (Raise e, tr)
      | Return info =>
        match file_processor_map !! info_extension info with
        | None => (Raise (UnsupportedExtension (info_extension info)), tr)
        | Some p => run_processor ollama config p file_bytes tr
        end
      end.
Proof.
  unfold process_document_async. rewrite try_except_reraise.
  destruct (Py.py_not filename || Py.py_not file_bytes); [reflexivity |].
  unfold bind at 1. unfold lift.
  destruct (_validate_file config filename file_bytes file_mime) as [info | e]; [| reflexivity].
  destruct (file_processor_map !! info_extension info) as [p |]; [| reflexivity].
  apply bind_ret.
Qed.

End Extractors.

(** ** The pipeline, in full *)


Section Pipeline.

Context `{rt : Runtime}.
Variable ollama : service.
Variable config : ProcessingConfig.

(** X3.  A file whose lower-cased suffix is not an allowed extension stops
    the pipeline at validation: it raises "Unsupported file extension: "
    followed by that suffix, whatever the content type, the size and the
    name are, and the service is not called. *)
Theorem unsupported_extension_stops_pipeline (filename : list N) (file_bytes : list byte)
    (file_mime : list N) (tr : trace) :
  filename <> [] -> file_bytes <> [] ->
  str_lower (Path_suffix filename) ∉ allowed_extensions config ->
  process_document_async ollama config filename file_bytes file_mime tr
  = (Raise (ValueError (Py.lit "Unsupported file extension: "
                        ++ str_lower (Path_suffix filename))),
     tr).
Proof.
  intros Hname Hbytes Hext. rewrite process_document_async_steps.
  destruct filename; [contradiction |]. destruct file_bytes; [contradiction |].
  cbn [Py.py_not orb]. rewrite validate_unsupported by exact Hext. reflexivity.
Qed.

(** X4.  A file with an allowed extension for which content types are
    configured, and whose declared content type is not among them, stops
    the pipeline at validation with the content-type error, whatever its
    size and name are, and the service is not called. *)
Theorem content_type_mismatch_stops_pipeline (filename : list N) (file_bytes : list byte)
    (file_mime : list N) (tr : trace) :
  filename <> [] -> file_bytes <> [] ->
  str_lower (Path_suffix filename) ∈ allowed_extensions config ->
  _get_expected_mime_types config (str_lower (Path_suffix filename)) <> ∅ ->
  file_mime ∉ _get_expected_mime_types config (str_lower (Path_suffix filename)) ->
  process_document_async ollama config filename file_bytes file_mime tr
  = (Raise (ValueError
              (Py.lit "File content doesn't match extension: "
               ++ str_lower (Path_suffix filename) ++ Py.lit ". "
               ++ Py.lit "Expected: "
               ++ set_repr (_get_expected_mime_types config (str_lower (Path_suffix filename)))
               ++ Py.lit ", Got: " ++ file_mime)),
     tr).
Proof.
  intros Hname Hbytes Hext Hset Hmime. rewrite process_document_async_steps.
  destruct filename as [|c filename]; [contradiction |].
  destruct file_bytes as [|b file_bytes]; [contradiction |].
  cbn [Py.py_not orb]. rewrite validate_mismatch by assumption. reflexivity.
Qed.

(** X5.  An empty filename or an empty file is refused before validation:
    the pipeline raises "Filename and file_bytes are required", whatever
    the rest of the request is, and the service is not called. *)
Theorem empty_input_is_refused (filename : list N) (file_bytes : list byte)
    (file_mime : list N) (tr : trace) :
  filename = [] \/ file_bytes = [] ->
  process_document_async ollama config filename file_bytes file_mime tr
  = (Raise (ValueError (Py.lit "Filename and file_bytes are required")), tr).
Proof.
  intros H. rewrite process_document_async_steps.
  destruct H as [-> | ->]; [reflexivity |]. rewrite orb_true_r. reflexivity.
Qed.

(** X6.  Whatever the pipeline raises is a [ValueError]: the failures of
    the document readers and of the vision call reach the caller wrapped
    in one. *)
Theorem pipeline_raises_only_value_errors (filename : list N) (file_bytes : list byte)
    (file_mime : list N) (tr : trace) (e : exn) :
  fst (process_document_async ollama config filename file_bytes file_mime tr) = Raise e ->
  exn_class e = "ValueError"%string.
Proof.
  rewrite process_document_async_steps.
  destruct (Py.py_not filename || Py.py_not file_bytes).
  { intros H. injection H as <-. reflexivity. }
  destruct (_validate_file config filename file_bytes file_mime) as [info | e'] eqn:E.
  - destruct (file_processor_map !! info_extension info) as [p |].
    + destruct (run_processor_shape ollama config p file_bytes tr)
        as (result & new & -> & _ & _ & Hexn).
      exact (Hexn e).
    + intros H. injection H as <-. reflexivity.
  - intros H. injection H as <-.
    exact (validate_raises_value_error config _ _ _ _ E).
Qed.

(** X7.  The pipeline only adds to the record of service calls, and adds
    at most two calls; at most one when the extension does not select the
    image extractor. *)
Theorem pipeline_makes_at_most_two_calls (filename : list N) (file_bytes : list byte)
    (file_mime : list N) (tr : trace) :
  exists new,
    snd (process_document_async ollama config filename file_bytes file_mime tr) = tr ++ new
    /\ (length new <= 2)%nat
    /\ (file_processor_map !! str_lower (Path_suffix filename) <> Some image_processor ->
        (length new <= 1)%nat).
Proof.
  rewrite process_document_async_steps.
  assert (Hnone : exists new : trace,
             tr = tr ++ new /\ (length new <= 2)%nat
             /\ (file_processor_map !! str_lower (Path_suffix filename)
                 <> Some image_processor -> (length new <= 1)%nat)).
  { exists []. rewrite app_nil_r. repeat split; simpl; lia. }
  destruct (Py.py_not filename || Py.py_not file_bytes); [exact Hnone |].
  destruct (_validate_file config filename file_bytes file_mime) as [info | e'] eqn:E;
    [| exact Hnone].
  apply validate_returns_extension in E. destruct E as (_ & ->).
  cbn [info_extension].
  destruct (file_processor_map !! str_lower (Path_suffix filename)) as [p |]; [| exact Hnone].
  destruct (run_processor_shape ollama config p file_bytes tr)
    as (result & new & -> & Hlen & Hone & _).
  exists new. repeat split; [exact Hlen |].
  intros Hp. apply Hone. congruence.
Qed.



End Pipeline.

Lemma unsupported_extension_stops_pipeline_witness :
  process_document_async (rt := Sample.runtime) Sample.answering Sample.config
    (Py.lit "setup.exe") (Py.blit "MZ") (Py.lit "text/plain") []
  = (Raise (ValueError (Py.lit "Unsupported file extension: " ++ Py.lit ".exe")), []).
Proof.
  apply (unsupported_extension_stops_pipeline (rt := Sample.runtime)
           Sample.answering Sample.config).
  - vm_compute. discriminate.
  - vm_compute. discriminate.
  - apply (bool_decide_eq_false_1 _). vm_compute. reflexivity.
Defined.

Lemma content_type_mismatch_stops_pipeline_witness :
  process_document_async (rt := Sample.runtime) Sample.answering Sample.config
    (Py.lit "scan.png") Sample.image_bytes (Py.lit "image/jpeg") []
  = (Raise (ValueError
              (Py.lit "File content doesn't match extension: "
               ++ Py.lit ".png" ++ Py.lit ". "
               ++ Py.lit "Expected: " ++ Py.lit "{'image/png'}"
               ++ Py.lit ", Got: " ++ Py.lit "image/jpeg")),
     []).
Proof.
  apply (content_type_mismatch_stops_pipeline (rt := Sample.runtime)
           Sample.answering Sample.config).
  - vm_compute. discriminate.
  - vm_compute. discriminate.
  - by_decision.
  - apply (bool_decide_eq_false_1 _). vm_compute. reflexivity.
  - apply (bool_decide_eq_false_1 _). vm_compute. reflexivity.
Defined.

Lemma empty_input_is_refused_witness :
  process_document_async (rt := Sample.runtime) Sample.answering Sample.config
    (Py.lit "empty.txt") [] (Py.lit "text/plain") []
  = (Raise (ValueError (Py.lit "Filename and file_bytes are required")), []).
Proof.
  apply (empty_input_is_refused (rt := Sample.runtime) Sample.answering Sample.config).
  right. reflexivity.
Defined.

Lemma pipeline_raises_only_value_errors_witness :
  exn_class (ValueError (Py.lit "Failed to process image: Connection refused"))
  = "ValueError"%string.
Proof.
  apply (pipeline_raises_only_value_errors (rt := Sample.runtime) Sample.down Sample.config
           (Py.lit "scan.png") Sample.image_bytes (Py.lit "image/png") []).
  vm_compute. reflexivity.
Defined.



(** ** Truncation *)

Lemma slice_to_length {A : Type} (n : Z) (s : list A) :
  0 <= n -> Py.len (Py.slice_to n s) <= n.
Proof.
  intros H. rewrite slice_to_nonneg by exact H. unfold Py.len.
  rewrite length_firstn. lia.
Qed.

Lemma slice_to_prefix {A : Type} (n : Z) (s : list A) :
  exists rest, s = Py.slice_to n s ++ rest.
Proof.
  unfold Py.slice_to. destruct (0 <=? n); eexists; symmetry; apply firstn_skipn.
Qed.

Lemma slice_to_twice {A : Type} (n : Z) (s : list A) :
  0 <= n -> Py.slice_to n (Py.slice_to n s) = Py.slice_to n s.
Proof.
  intros H. rewrite !slice_to_nonneg by exact H.
  rewrite firstn_firstn, Nat.min_id. reflexivity.
Qed.

Lemma lstrip_length (s : list N) : (length (Py.lstrip s) <= length s)%nat.
Proof.
  induction s as [|c s IH]; simpl; [lia |].
  destruct (Py.isspace c); simpl; lia.
Qed.

Lemma strip_length (s : list N) : (length (Py.strip s) <= length s)%nat.
Proof.
  unfold Py.strip, Py.rstrip. rewrite length_rev.
  etransitivity; [apply lstrip_length |]. rewrite length_rev. apply lstrip_length.
Qed.


Section TextFiles.

Context `{rt : Runtime}.
Variable ollama : service.
Variable config : ProcessingConfig.


(** X11.  When the service fails on a text file, the extractor returns the
    header "Original content:" and a blank line followed by the first N
    characters of the decoded file, N being the extraction limit: cutting
    the text before the call and again in the fallback cuts it once. *)
Theorem txt_extractor_degrades_to_decoded_text (txt_bytes : list byte) (tr : trace)
    (e : exn) :
  0 <= text_extract_limit config ->
  Py.strip (Py.slice_to (text_extract_limit config) (txt_decode txt_bytes)) <> [] ->
  ollama (length tr)
    (summary_request config
       (Py.slice_to (text_extract_limit config) (txt_decode txt_bytes)) (Py.lit "TXT"))
  = ChatFailure e ->
  fst (_extract_text_from_txt_bytes ollama config txt_bytes tr)
  = Return (Py.lit "Original content:" ++ nl ++ nl
            ++ firstn (Z.to_nat (text_extract_limit config)) (txt_decode txt_bytes)).
Proof.
  intros Hlimit Htext Hfail.
  rewrite extract_txt_returns, summarize_call by exact Htext.
  rewrite Hfail. unfold original_content.
  rewrite slice_to_twice, slice_to_nonneg by exact Hlimit. reflexivity.
Qed.

(** X12.  No request made for a PDF, DOCX or text file carries more than N
    characters of the document, N being the extraction limit: the request
    is the summarization request for a text of at most N characters. *)
Theorem document_requests_are_truncated (p : processor) (file_bytes : list byte)
    (tr : trace) (req : chat_request) (reply : chat_reply) :
  0 <= text_extract_limit config ->
  p <> image_processor ->
  In (req, reply) (calls_made (run_processor ollama config p file_bytes) tr) ->
  exists text doc_type,
    req = summary_request config text doc_type
    /\ Py.len text <= text_extract_limit config.
Proof.
  intros Hlimit Hp Hin.
  assert (Hadapter : forall text doc_type,
             Py.len text <= text_extract_limit config ->
             In (req, reply)
                (calls_made (_clean_and_summarize_text ollama config text doc_type) tr) ->
             exists text doc_type,
               req = summary_request config text doc_type
               /\ Py.len text <= text_extract_limit config).
  { intros text doc_type Hlen H. unfold calls_made in H.
    destruct (strip_cases text) as [Hb | Hb].
    - rewrite summarize_blank in H by exact Hb. simpl in H.
      rewrite <- (app_nil_r tr) in H at 2. rewrite skipn_length_app in H. destruct H.
    - rewrite summarize_call in H by exact Hb. simpl in H.
      rewrite skipn_length_app in H. destruct H as [H | []].
      injection H as <- _. exists text, doc_type. split; [reflexivity | exact Hlen]. }
  unfold calls_made in Hin. destruct p; cbn [run_processor] in Hin; [| | | contradiction].
  - rewrite extract_pdf_cases in Hin. destruct (fitz_page_texts file_bytes) as [pages | e'].
    + eapply Hadapter; [| exact Hin]. apply slice_to_length. exact Hlimit.
    + simpl in Hin. rewrite <- (app_nil_r tr) in Hin at 2.
      rewrite skipn_length_app in Hin. destruct Hin.
  - rewrite extract_docx_cases in Hin. destruct (docx_Document file_bytes) as [doc | e'].
    + eapply Hadapter; [| exact Hin].
      pose proof (strip_length (Py.slice_to (text_extract_limit config) (docx_text doc))).
      pose proof (slice_to_length (text_extract_limit config) (docx_text doc) Hlimit).
      unfold Py.len in *. lia.
    + simpl in Hin. rewrite <- (app_nil_r tr) in Hin at 2.
      rewrite skipn_length_app in Hin. destruct Hin.
  - rewrite extract_txt_returns in Hin.
    eapply Hadapter; [| exact Hin]. apply slice_to_length. exact Hlimit.
Qed.

End TextFiles.


Lemma txt_extractor_degrades_to_decoded_text_witness :
  fst (_extract_text_from_txt_bytes (rt := Sample.runtime) Sample.down Cases.short_config
         (Py.blit "hello world") [])
  = Return (Py.lit "Original content:" ++ nl ++ nl
            ++ firstn (Z.to_nat (text_extract_limit Cases.short_config))
                 (txt_decode (rt := Sample.runtime) (Py.blit "hello world"))).
Proof.
  apply (txt_extractor_degrades_to_decoded_text (rt := Sample.runtime)
           Sample.down Cases.short_config (Py.blit "hello world") [] Sample.refused).
  - vm_compute. discriminate.
  - vm_compute. discriminate.
  - reflexivity.
Defined.

Lemma document_requests_are_truncated_witness :
  exists text doc_type,
    summary_request Cases.short_config (Py.lit "hello") (Py.lit "TXT")
    = summary_request Cases.short_config text doc_type
    /\ Py.len text <= text_extract_limit Cases.short_config.
Proof.
  apply (document_requests_are_truncated (rt := Sample.runtime)
           Sample.answering Cases.short_config txt_processor (Py.blit "hello world") []
           (summary_request Cases.short_config (Py.lit "hello") (Py.lit "TXT"))
           (ChatResponse (Py.lit "SUMMARY"))).
  - vm_compute. discriminate.
  - discriminate.
  - vm_compute. left. reflexivity.
Defined.

(** ** PDF and DOCX documents *)

Lemma pdf_page_loop_no_text (pages : list (list N)) (page_num : nat) (text : list N) :
  Forall (fun page_text => page_text = []) pages ->
  pdf_page_loop page_num pages text = text.
Proof.
  intros H. revert page_num. induction H as [|page_text rest -> _ IH]; intros page_num.
  - reflexivity.
  - cbn [pdf_page_loop Py.py_not]. apply IH.
Qed.

Lemma pdf_text_head (pages : list (list N)) (page_num : nat) :
  Exists (fun page_text => page_text <> []) pages ->
  exists rest, pdf_page_loop page_num pages [] = 10%N :: 45%N :: rest.
Proof.
  revert page_num. induction pages as [|page_text pages IH]; intros page_num H.
  - inversion H.
  - destruct page_text as [|c page_text].
    + cbn [pdf_page_loop Py.py_not]. apply IH.
      inversion H as [? ? Hne | ? ? Hrest]; [contradiction | exact Hrest].
    + rewrite pdf_page_loop_shape. cbn [enumerate List.filter].
      cbn [Py.py_not negb List.map concat app]. unfold page_header, nl.
      change (Py.lit "--- Page ") with [45; 45; 45; 32; 80; 97; 103; 101; 32]%N.
      cbn [app]. eexists. reflexivity.
Qed.

Lemma forall_space_slice (n : Z) (s : list N) :
  Forall (fun c => Py.isspace c = true) s ->
  Forall (fun c => Py.isspace c = true) (Py.slice_to n s).
Proof.
  intros H. destruct (slice_to_prefix n s) as [rest Hs]. rewrite Hs in H.
  apply Forall_app in H. apply H.
Qed.

Section Documents.

Context `{rt : Runtime}.
Variable ollama : service.
Variable config : ProcessingConfig.

(** X13.  A PDF or DOCX the reader cannot open, or cannot read through,
    makes the extractor raise a [ValueError] "Failed to process PDF: " or
    "Failed to process DOCX: " followed by the reader's message, and the
    service is not called.  Once the document is read the extractor
    returns, with at most one call, whatever the service does. *)
Theorem reader_failures_are_wrapped (file_bytes : list byte) (tr : trace) :
  (forall e, fitz_page_texts file_bytes = Raise e ->
     _extract_text_from_pdf_bytes ollama config file_bytes tr
     = (Raise (ValueError (Py.lit "Failed to process PDF: " ++ exn_str e)), tr))
  /\ (forall e, docx_Document file_bytes = Raise e ->
        _extract_text_from_docx_bytes ollama config file_bytes tr
        = (Raise (ValueError (Py.lit "Failed to process DOCX: " ++ exn_str e)), tr))
  /\ (forall pages, fitz_page_texts file_bytes = Return pages ->
        exists text new,
          _extract_text_from_pdf_bytes ollama config file_bytes tr = (Return text, tr ++ new)
          /\ (length new <= 1)%nat)
  /\ (forall doc, docx_Document file_bytes = Return doc ->
        exists text new,
          _extract_text_from_docx_bytes ollama config file_bytes tr = (Return text, tr ++ new)
          /\ (length new <= 1)%nat).
Proof.
  repeat split.
  - intros e H. rewrite extract_pdf_cases, H. reflexivity.
  - intros e H. rewrite extract_docx_cases, H. reflexivity.
  - intros pages H. rewrite extract_pdf_cases, H. apply summarize_shape.
  - intros doc H. rewrite extract_docx_cases, H. apply summarize_shape.
Qed.

(** X14.  For a PDF that is read, and an extraction limit of at least two
    characters, the service is called exactly when some page has text: with
    no text on any page the fixed message "No extractable text content
    found." is returned without a call; otherwise one call is made, on the
    gathered text cut at the limit. *)
Theorem pdf_service_called_iff_text (pdf_bytes : list byte) (pages : list (list N))
    (tr : trace) :
  fitz_page_texts pdf_bytes = Return pages ->
  2 <= text_extract_limit config ->
  (Forall (fun page_text => page_text = []) pages ->
   _extract_text_from_pdf_bytes ollama config pdf_bytes tr
   = (Return (Py.lit "No extractable text content found."), tr))
  /\ (Exists (fun page_text => page_text <> []) pages ->
      calls_made (_extract_text_from_pdf_bytes ollama config pdf_bytes) tr
      = [(summary_request config
            (Py.slice_to (text_extract_limit config) (pdf_text pages)) (Py.lit "PDF"),
          ollama (length tr)
            (summary_request config
               (Py.slice_to (text_extract_limit config) (pdf_text pages)) (Py.lit "PDF")))]).
Proof.
  intros Hread Hlimit. split.
  - intros Hblank. rewrite extract_pdf_cases, Hread. unfold pdf_text.
    rewrite pdf_page_loop_no_text by exact Hblank.
    apply summarize_blank. apply forall_space_slice. constructor.
  - intros Htext. apply calls_made_app. rewrite extract_pdf_cases, Hread.
    rewrite summarize_call; [reflexivity |].
    unfold pdf_text. destruct (pdf_text_head pages 0 Htext) as [rest ->].
    rewrite slice_to_nonneg by lia.
    destruct (Z.to_nat (text_extract_limit config)) as [|[|n]] eqn:E; [lia | lia |].
    cbn [firstn]. intros Hstrip. apply strip_nil_iff in Hstrip.
    inversion Hstrip as [|? ? _ Hrest]. inversion Hrest as [|? ? Hdash _].
    vm_compute in Hdash. discriminate.
Qed.

End Documents.

Lemma reader_failures_are_wrapped_witness :
  _extract_text_from_pdf_bytes (rt := Sample.runtime) Sample.answering Sample.config
    (Py.blit "not a pdf") []
  = (Raise (ValueError (Py.lit "Failed to process PDF: " ++ Py.lit "Failed to open stream")),
     []).
Proof.
  apply (proj1 (reader_failures_are_wrapped (rt := Sample.runtime)
                  Sample.answering Sample.config (Py.blit "not a pdf") [])
           (Exn "FileDataError" (Py.lit "Failed to open stream"))).
  reflexivity.
Defined.

Lemma pdf_service_called_iff_text_witness :
  _extract_text_from_pdf_bytes (rt := Cases.reading [[]; []; []] Cases.blank_docx [])
    Sample.answering Sample.config (Py.blit "%PDF-1.7") []
  = (Return (Py.lit "No extractable text content found."), [])
  /\ calls_made
       (_extract_text_from_pdf_bytes
          (rt := Cases.reading [[]; Py.lit "Beta"; []] Cases.blank_docx [])
          Sample.answering Sample.config (Py.blit "%PDF-1.7")) []
     = [(summary_request Sample.config
           (Py.slice_to (text_extract_limit Sample.config) (pdf_text [[]; Py.lit "Beta"; []]))
           (Py.lit "PDF"),
         Sample.answering (length (@nil (chat_request * chat_reply)))
           (summary_request Sample.config
              (Py.slice_to (text_extract_limit Sample.config)
                 (pdf_text [[]; Py.lit "Beta"; []]))
              (Py.lit "PDF")))].
Proof.
  split.
  - apply (proj1 (pdf_service_called_iff_text
                    (rt := Cases.reading [[]; []; []] Cases.blank_docx [])
                    Sample.answering Sample.config (Py.blit "%PDF-1.7") [[]; []; []] []
                    eq_refl ltac:(vm_compute; discriminate))).
    repeat constructor.
  - apply (proj2 (pdf_service_called_iff_text
                    (rt := Cases.reading [[]; Py.lit "Beta"; []] Cases.blank_docx [])
                    Sample.answering Sample.config (Py.blit "%PDF-1.7")
                    [[]; Py.lit "Beta"; []] []
                    eq_refl ltac:(vm_compute; discriminate))).
    apply Exists_cons_tl. apply Exists_cons_hd. vm_compute. discriminate.
Defined.

Lemma existsb_filter_nil {A : Type} (f : A -> bool) (l : list A) :
  existsb f l = negb (Py.py_not (List.filter f l)).
Proof.
  induction l as [|x l IH]; [reflexivity |]. cbn [existsb List.filter].
  destruct (f x); [reflexivity | exact IH].
Qed.

Lemma join_nonempty (sep : list N) (parts : list (list N)) :
  Forall (fun part => part <> []) parts -> parts <> [] -> Py.join sep parts <> [].
Proof.
  intros Hparts Hne. destruct parts as [|part rest]; [contradiction |].
  inversion Hparts as [|? ? Hpart _]. subst.
  destruct part as [|c part]; [contradiction |].
  destruct rest; cbn [Py.join app]; discriminate.
Qed.

(** A table row contributes exactly when one of its cells has text. *)
Lemma row_text_empty (cells : list (list N)) :
  Py.py_not
    (Py.join (Py.lit " | ") (List.filter (fun cell => negb (Py.py_not cell)) cells))
  = negb (existsb (fun cell => negb (Py.py_not cell)) cells).
Proof.
  rewrite existsb_filter_nil, negb_involutive.
  destruct (List.filter (fun cell => negb (Py.py_not cell)) cells) as [|cell rest] eqn:E;
    [reflexivity |].
  assert (Hne : Py.join (Py.lit " | ") (cell :: rest) <> []).
  { apply join_nonempty; [| discriminate]. rewrite <- E.
    apply List.Forall_forall. intros part Hin. apply filter_In in Hin.
    destruct Hin as [_ Hin]. destruct part; [discriminate | discriminate]. }
  destruct (Py.join (Py.lit " | ") (cell :: rest)); [contradiction | reflexivity].
Qed.

Lemma docx_paragraph_loop_shape (paragraphs : list (list N)) (text : list N) :
  fold_left
    (fun text paragraph => if Py.py_not paragraph then text else text ++ paragraph ++ nl)
    paragraphs text
  = text
    ++ concat (List.map (fun paragraph => paragraph ++ nl)
                 (List.filter (fun paragraph => negb (Py.py_not paragraph)) paragraphs)).
Proof.
  revert text. induction paragraphs as [|paragraph rest IH]; intros text.
  - cbn. rewrite app_nil_r. reflexivity.
  - cbn [fold_left List.filter]. rewrite IH.
    destruct paragraph as [|c paragraph]; cbn [Py.py_not negb List.map concat].
    + reflexivity.
    + rewrite <- !app_assoc. reflexivity.
Qed.

Lemma docx_row_loop_shape (rows : list (list (list N))) (text : list N) :
  docx_row_loop rows text
  = text
    ++ concat
         (List.map
            (fun cells =>
               Py.lit "Table row: "
               ++ Py.join (Py.lit " | ")
                    (List.filter (fun cell => negb (Py.py_not cell)) cells)
               ++ nl)
            (List.filter (fun cells => existsb (fun cell => negb (Py.py_not cell)) cells)
               rows)).
Proof.
  unfold docx_row_loop. revert text. induction rows as [|cells rest IH]; intros text.
  - cbn. rewrite app_nil_r. reflexivity.
  - cbn [fold_left List.filter]. rewrite IH, row_text_empty.
    destruct (existsb (fun cell => negb (Py.py_not cell)) cells); cbn [negb List.map concat].
    + rewrite <- !app_assoc. reflexivity.
    + reflexivity.
Qed.

Lemma docx_table_loop_shape (tables : list (list (list (list N)))) (text : list N) :
  fold_left (fun text rows => docx_row_loop rows text) tables text
  = text
    ++ concat
         (List.map
            (fun cells =>
               Py.lit "Table row: "
               ++ Py.join (Py.lit " | ")
                    (List.filter (fun cell => negb (Py.py_not cell)) cells)
               ++ nl)
            (List.filter (fun cells => existsb (fun cell => negb (Py.py_not cell)) cells)
               (concat tables))).
Proof.
  revert text. induction tables as [|rows rest IH]; intros text.
  - cbn. rewrite app_nil_r. reflexivity.
  - cbn [fold_left concat]. rewrite IH, docx_row_loop_shape.
    rewrite List.filter_app, List.map_app, List.concat_app, <- app_assoc. reflexivity.
Qed.


(** X16.  A DOCX whose paragraphs hold whitespace at most and whose table
    cells are all empty gives the fixed message "No extractable text
    content found." without a call to the service. *)
Theorem docx_without_text_is_not_summarized `{rt : Runtime} (ollama : service)
    (config : ProcessingConfig) (docx_bytes : list byte) (doc : docx) (tr : trace) :
  docx_Document docx_bytes = Return doc ->
  Forall (Forall (fun c => Py.isspace c = true)) (paragraphs doc) ->
  Forall (Forall (Forall (fun cell => cell = []))) (tables doc) ->
  _extract_text_from_docx_bytes ollama config docx_bytes tr
  = (Return (Py.lit "No extractable text content found."), tr).
Proof.
  intros Hread Hparagraphs Htables. rewrite extract_docx_cases, Hread.
  assert (Hblank : Forall (fun c => Py.isspace c = true) (docx_text doc)).
  { unfold docx_text, docx_paragraph_text.
    rewrite docx_table_loop_shape, docx_paragraph_loop_shape.
    apply Forall_app. split.
    - apply Forall_concat. apply Forall_map. simpl app.
      apply List.Forall_forall. intros paragraph Hin. apply filter_In in Hin.
      destruct Hin as [Hin _]. apply Forall_app. split.
      + exact (proj1 (List.Forall_forall _ _) Hparagraphs paragraph Hin).
      + repeat constructor.
    - replace (List.filter (fun cells => existsb (fun cell => negb (Py.py_not cell)) cells)
                 (concat (tables doc))) with (@nil (list (list N))); [constructor |].
      symmetry. apply (proj2 (List.Forall_concat _ _)) in Htables.
      induction Htables as [|cells rest Hcells _ IH]; [reflexivity |].
      cbn [List.filter]. rewrite IH.
      replace (existsb (fun cell => negb (Py.py_not cell)) cells) with false; [reflexivity |].
      symmetry. clear -Hcells. induction Hcells as [|cell cells -> _ IH]; [reflexivity |].
      cbn [existsb Py.py_not negb orb]. exact IH. }
  apply (forall_space_slice (text_extract_limit config)) in Hblank.
  apply strip_nil_iff in Hblank. rewrite Hblank. apply summarize_blank. constructor.
Qed.

Lemma docx_without_text_is_not_summarized_witness :
  _extract_text_from_docx_bytes
    (rt := Cases.reading []
             {| paragraphs := [Py.lit "  "; []]; tables := [[[[]; []]; []]] |} [])
    Sample.answering Sample.config (Py.blit "PK") []
  = (Return (Py.lit "No extractable text content found."), []).
Proof.
  apply (docx_without_text_is_not_summarized
           (rt := Cases.reading []
                    {| paragraphs := [Py.lit "  "; []]; tables := [[[[]; []]; []]] |} [])
           Sample.answering Sample.config (Py.blit "PK")
           {| paragraphs := [Py.lit "  "; []]; tables := [[[[]; []]; []]] |} []).
  - reflexivity.
  - repeat constructor.
  - repeat constructor.
Defined.

(** ** Single files and batches *)

(** X17.  Where [process_single_file_async] takes the bytes from.  Bytes
    held in memory are used as they are, and the path is not looked at.
    Without them, a non-empty path is read from disk, and a failure of that
    read reaches the caller as it is, before any validation.  With neither,
    the call raises "File content is not available as bytes or valid path",
    whatever the name and the content type.  In each case the pipeline then
    runs on the file's name, those bytes and the file's declared content
    type. *)
Theorem single_file_bytes_source `{rt : Runtime} (ollama : service)
    (config : ProcessingConfig) (f : cl_File) (tr : trace) :
  (forall content,
      File_content f = Some content ->
      process_single_file_async ollama config (VFile f) tr
      = process_document_async ollama config (File_name f) content (File_mime f) tr)
  /\ (forall path,
         File_content f = None -> File_path f = Some path -> path <> [] ->
         process_single_file_async ollama config (VFile f) tr
         = match open_rb_read path with
           | Return file_bytes =>
             process_document_async ollama config (File_name f) file_bytes (File_mime f) tr
           | Raise e => (Raise e, tr)
           end)
  /\ (File_content f = None ->
      File_path f = None \/ File_path f = Some [] ->
      process_single_file_async ollama config (VFile f) tr
      = (Raise (ValueError (Py.lit "File content is not available as bytes or valid path")),
         tr)).
Proof.
  unfold process_single_file_async, _read_bytes. repeat split.
  - intros content ->. unfold bind at 1. unfold lift. apply bind_ret.
  - intros path -> -> Hpath. destruct path; [contradiction |]. cbn [Py.py_not].
    unfold bind at 1. unfold lift.
    destruct (open_rb_read (n :: path)); [apply bind_ret | reflexivity].
  - intros -> [-> | ->]; reflexivity.
Qed.

Lemma single_file_bytes_source_witness :
  process_single_file_async (rt := Sample.runtime) Sample.answering Sample.config
    (VFile (Cases.in_memory "a.txt" "text/plain" "hello")) []
  = process_document_async (rt := Sample.runtime) Sample.answering Sample.config
      (Py.lit "a.txt") (Py.blit "hello") (Py.lit "text/plain") []
  /\ process_single_file_async (rt := Sample.runtime) Sample.answering Sample.config
       (VFile (Cases.on_disk "a.txt" "text/plain" "/tmp/gone.txt")) []
     = (Raise (Exn "FileNotFoundError" (Py.lit "No such file or directory")), [])
  /\ process_single_file_async (rt := Sample.runtime) Sample.answering Sample.config
       (VFile (Cases.nowhere "a.txt" "text/plain")) []
     = (Raise (ValueError (Py.lit "File content is not available as bytes or valid path")),
        []).
Proof.
  split; [| split].
  - apply (proj1 (single_file_bytes_source (rt := Sample.runtime)
                    Sample.answering Sample.config
                    (Cases.in_memory "a.txt" "text/plain" "hello") [])).
    reflexivity.
  - apply (proj1 (proj2 (single_file_bytes_source (rt := Sample.runtime)
                           Sample.answering Sample.config
                           (Cases.on_disk "a.txt" "text/plain" "/tmp/gone.txt") []))
             (Py.lit "/tmp/gone.txt")).
    + reflexivity.
    + reflexivity.
    + vm_compute. discriminate.
  - apply (proj2 (proj2 (single_file_bytes_source (rt := Sample.runtime)
                           Sample.answering Sample.config
                           (Cases.nowhere "a.txt" "text/plain") []))).
    + reflexivity.
    + left. reflexivity.
Defined.

Lemma dict_set_fresh {V : Type} (d : list (list N * V)) (k : list N) (v : V) :
  ~ In k (List.map fst d) -> dict_set d k v = d ++ [(k, v)].
Proof.
  induction d as [|[k' v'] d IH]; intros H; [reflexivity |].
  cbn [dict_set]. destruct (Py.str_eqb k' k) eqn:E.
  - apply str_eqb_eq in E. subst k'. exfalso. apply H. left. reflexivity.
  - cbn [app]. rewrite IH; [reflexivity |]. intros Hin. apply H. right. exact Hin.
Qed.

(** X18.  [batch_process_documents] never fails and keeps the batch
    together: for a dictionary of files it returns one entry per file, in
    the order of the dictionary, and every entry is a string.  The string
    is the message of the [TypeError] of the method's own call, so no file
    is processed. *)
Theorem batch_keeps_one_entry_per_file (file_data : list (list N * list byte)) :
  List.NoDup (List.map fst file_data) ->
  batch_process_documents file_data
  = List.map
      (fun item =>
         (fst item,
          Str (Py.lit "Error processing " ++ fst item
               ++ Py.lit ": DocumentProcessor.process_document_async() missing 1 required positional argument: 'file_mime'")))
      file_data.
Proof.
  intros Hkeys. unfold batch_process_documents.
  rewrite <- (app_nil_l (List.map _ file_data)).
  assert (Hfresh : forall k, In k (List.map fst (@nil (list N * batch_value))) ->
                             ~ In k (List.map fst file_data)) by (intros k []).
  revert Hfresh. generalize (@nil (list N * batch_value)) as results.
  induction file_data as [|[k b] rest IH]; intros results Hfresh.
  - cbn. rewrite app_nil_r. reflexivity.
  - cbn [fold_left length List.map fst].
    rewrite process_document_async_two_arguments.
    inversion Hkeys as [|? ? Hk Hrest]. subst.
    rewrite dict_set_fresh.
    + rewrite IH; [rewrite <- app_assoc; reflexivity | exact Hrest |].
      intros k' Hin. rewrite List.map_app in Hin. apply in_app_or in Hin.
      destruct Hin as [Hin | [<- | []]].
      * intros Hin'. apply (Hfresh k' Hin). right. exact Hin'.
      * exact Hk.
    + intros Hin. apply (Hfresh k Hin). left. reflexivity.
Qed.

Lemma batch_keeps_one_entry_per_file_witness :
  batch_process_documents Sample.three_files
  = List.map
      (fun item =>
         (fst item,
          Str (Py.lit "Error processing " ++ fst item
               ++ Py.lit ": DocumentProcessor.process_document_async() missing 1 required positional argument: 'file_mime'")))
      Sample.three_files.
Proof.
  apply (batch_keeps_one_entry_per_file Sample.three_files).
  vm_compute. repeat constructor; simpl; intuition discriminate.
Defined.

(** ** Plain text under CPython's codecs *)

Lemma utf8_run_ascii (bs : list N) :
  Forall (fun b => (b < 128)%N) bs -> Py.utf8_run None bs = Some bs.
Proof.
  induction 1 as [|b bs Hb _ IH]; [reflexivity |].
  cbn [Py.utf8_run]. apply N.ltb_lt in Hb.
  change 0x80%N with 128%N. rewrite Hb, IH. reflexivity.
Qed.

(** X19.  Under CPython's codecs a file of ASCII bytes is decoded to the
    same characters, one per byte: the text the extractor works on is the
    file's content. *)
Theorem ascii_text_decodes_to_itself
    (pdf_reader : list byte -> outcome (list (list N)))
    (docx_reader : list byte -> outcome docx)
    (disk : list N -> outcome (list byte)) (txt_bytes : list byte) :
  Forall (fun b => (Byte.to_N b < 128)%N) txt_bytes ->
  txt_decode (rt := CPython.runtime pdf_reader docx_reader disk) txt_bytes
  = List.map Byte.to_N txt_bytes.
Proof.
  intros H. rewrite cpython_txt_decode. unfold Py.utf8_strict, Py.byte_values.
  rewrite utf8_run_ascii; [reflexivity |].
  apply Forall_map. exact H.
Qed.

Lemma ascii_text_decodes_to_itself_witness :
  txt_decode (rt := Sample.runtime) (Py.blit "hello") = List.map Byte.to_N (Py.blit "hello").
Proof.
  apply (ascii_text_decodes_to_itself
           (fun _ => Raise (Exn "FileDataError" (Py.lit "Failed to open stream")))
           (fun _ => Raise (Exn "BadZipFile" (Py.lit "File is not a zip file")))
           (fun _ => Raise (Exn "FileNotFoundError" (Py.lit "No such file or directory")))
           (Py.blit "hello")).
  repeat constructor.
Defined.

(** X20.  Under CPython's codecs the loop over the encodings always ends
    with a text, at its first or second turn: the result is the UTF-8
    reading of the bytes when they are well-formed UTF-8 and their Latin-1
    reading, one character per byte, otherwise.  Windows-1252, ISO-8859-1
    and the decoding that replaces errors are never used. *)
Theorem cpython_decoding_never_falls_back
    (pdf_reader : list byte -> outcome (list (list N)))
    (docx_reader : list byte -> outcome docx)
    (disk : list N -> outcome (list byte)) (txt_bytes : list byte) :
  decode_loop (rt := CPython.runtime pdf_reader docx_reader disk) encodings txt_bytes
  = decode_loop (rt := CPython.runtime pdf_reader docx_reader disk) [utf_8; latin_1] txt_bytes
  /\ decode_loop (rt := CPython.runtime pdf_reader docx_reader disk) encodings txt_bytes
     = Some (txt_decode (rt := CPython.runtime pdf_reader docx_reader disk) txt_bytes)
  /\ txt_decode (rt := CPython.runtime pdf_reader docx_reader disk) txt_bytes
     = match Py.utf8_strict txt_bytes with
       | Some text => text
       | None => List.map Byte.to_N txt_bytes
       end.
Proof.
  unfold txt_decode, encodings.
  cbn [decode_loop bytes_decode CPython.runtime CPython.decode].
  destruct (Py.utf8_strict txt_bytes); repeat split; reflexivity.
Qed.

(** * The chat front end *)

(** ** Attachments of a message *)

Section Attachments.

Context `{rt : Runtime}.
Variable ollama : service.
Variables DEFAULT_MODEL VISION_MODEL : list N.

Lemma filter_documents_none (elements : list cl_File) :
  Forall (fun f => is_document f = false) elements ->
  List.filter is_document elements = [].
Proof.
  induction 1 as [|f rest Hf _ IH]; [reflexivity |].
  cbn [List.filter]. rewrite Hf. exact IH.
Qed.

(** X21.  A message without text is dropped, attachments and all: nothing
    is read and the service is not called.  A message with text and with
    attachments, none of which has a name ending in one of the six document
    suffixes once lower-cased, makes the handler raise "No valid document
    files found", again before anything is read. *)
Theorem message_dropped_or_refused (message : cl_Message) (tr : trace) :
  (Message_content message = [] ->
   on_message_prepare ollama DEFAULT_MODEL VISION_MODEL (Some message) tr
   = (Return Ignored, tr))
  /\ (Message_content message <> [] ->
      Message_elements message <> [] ->
      Forall (fun f => is_document f = false) (Message_elements message) ->
      on_message_prepare ollama DEFAULT_MODEL VISION_MODEL (Some message) tr
      = (Raise (ValueError (Py.lit "No valid document files found")), tr)).
Proof.
  unfold on_message_prepare. split.
  - intros ->. reflexivity.
  - intros Hcontent Helements Hnone.
    destruct (Message_content message); [contradiction |].
    destruct (Message_elements message) eqn:E; [contradiction |].
    cbn [Py.py_not]. rewrite filter_documents_none by exact Hnone. reflexivity.
Qed.

(** X22.  Of the attachments of a message with text, only the first whose
    name has a document suffix is processed; the ones after it are not
    looked at.  Its extracted text, when not empty, is appended to the text
    of the message after a blank line; a failure to process it is raised
    by the handler as it is. *)
Theorem only_first_document_is_processed (content : list N)
    (before after : list cl_File) (file : cl_File) (tr : trace) :
  content <> [] ->
  Forall (fun f => is_document f = false) before ->
  is_document file = true ->
  on_message_prepare ollama DEFAULT_MODEL VISION_MODEL
    (Some {| Message_content := content;
             Message_elements := before ++ file :: after |}) tr
  = match process_single_file_async ollama
            (make_config DEFAULT_MODEL VISION_MODEL None None None None) (VFile file) tr with
    | (Return extracted_content, tr') =>
      (Return (Prepared (if Py.py_not extracted_content then content
                         else content ++ nl ++ nl ++ extracted_content)),
       tr')
    | (Raise e, tr') => (Raise e, tr')
    end.
Proof.
  intros Hcontent Hbefore Hfile. unfold on_message_prepare.
  cbn [Message_content Message_elements].
  destruct content; [contradiction |]. cbn [Py.py_not].
  assert (Hdocs : exists rest,
             List.filter is_document (before ++ file :: after) = file :: rest).
  { rewrite List.filter_app, filter_documents_none by exact Hbefore.
    cbn [List.filter app]. rewrite Hfile. eexists. reflexivity. }
  destruct Hdocs as [rest Hdocs]. rewrite Hdocs.
  destruct (before ++ file :: after) eqn:E; [destruct before; discriminate |].
  cbn [Py.py_not]. unfold bind.
  destruct (process_single_file_async _ _ _ tr) as [[extracted | e] tr']; [| reflexivity].
  destruct (Py.py_not extracted); reflexivity.
Qed.

End Attachments.

Lemma message_dropped_or_refused_witness :
  on_message_prepare (rt := Sample.runtime) Sample.answering (Py.lit "llama3.2") (Py.lit "llava")
    (Some {| Message_content := [];
             Message_elements := [Cases.in_memory "a.txt" "text/plain" "hello"] |}) []
  = (Return Ignored, [])
  /\ on_message_prepare (rt := Sample.runtime) Sample.answering (Py.lit "llama3.2")
       (Py.lit "llava")
       (Some {| Message_content := Py.lit "What is this?";
                Message_elements := [Cases.in_memory "clip.mp4" "video/mp4" "...."] |}) []
     = (Raise (ValueError (Py.lit "No valid document files found")), []).
Proof.
  split.
  - apply (proj1 (message_dropped_or_refused (rt := Sample.runtime) Sample.answering
                    (Py.lit "llama3.2") (Py.lit "llava") _ [])).
    reflexivity.
  - apply (proj2 (message_dropped_or_refused (rt := Sample.runtime) Sample.answering
                    (Py.lit "llama3.2") (Py.lit "llava") _ [])).
    + vm_compute. discriminate.
    + discriminate.
    + constructor; [vm_compute; reflexivity | constructor].
Defined.

Lemma only_first_document_is_processed_witness :
  on_message_prepare (rt := Sample.runtime) Sample.answering (Py.lit "llama3.2") (Py.lit "llava")
    (Some {| Message_content := Py.lit "Compare these";
             Message_elements :=
               [Cases.in_memory "clip.mp4" "video/mp4" "...."]
               ++ Cases.in_memory "a.TXT" "text/plain" "hello"
                  :: [Cases.in_memory "b.txt" "text/plain" "world"] |}) []
  = match process_single_file_async (rt := Sample.runtime) Sample.answering
            (make_config (Py.lit "llama3.2") (Py.lit "llava") None None None None)
            (VFile (Cases.in_memory "a.TXT" "text/plain" "hello")) [] with
    | (Return extracted_content, tr') =>
      (Return (Prepared (if Py.py_not extracted_content then Py.lit "Compare these"
                         else Py.lit "Compare these" ++ nl ++ nl ++ extracted_content)),
       tr')
    | (Raise e, tr') => (Raise e, tr')
    end.
Proof.
  apply (only_first_document_is_processed (rt := Sample.runtime) Sample.answering
           (Py.lit "llama3.2") (Py.lit "llava") (Py.lit "Compare these")
           [Cases.in_memory "clip.mp4" "video/mp4" "...."]
           [Cases.in_memory "b.txt" "text/plain" "world"]
           (Cases.in_memory "a.TXT" "text/plain" "hello") []).
  - vm_compute. discriminate.
  - constructor; [vm_compute; reflexivity | constructor].
  - vm_compute. reflexivity.
Defined.

(** On that message the text that goes on to the chat model. *)
Example message_with_two_documents :
  fst (on_message_prepare (rt := Sample.runtime) Sample.answering (Py.lit "llama3.2")
         (Py.lit "llava")
         (Some {| Message_content := Py.lit "Compare these";
                  Message_elements :=
                    [Cases.in_memory "clip.mp4" "video/mp4" "....";
                     Cases.in_memory "a.TXT" "text/plain" "hello";
                     Cases.in_memory "b.txt" "text/plain" "world"] |}) [])
  = Return (Prepared (Py.lit "Compare these" ++ nl ++ nl ++ Py.lit "SUMMARY")).
Proof. vm_compute. reflexivity. Qed.

(** ** Resuming a chat *)

Lemma resume_loop_shape (steps : list thread_step) (chat_history : list history_entry) :
  Forall
    (fun step =>
       exists type,
         step_type step = Some type
         /\ (type = Py.lit "user_message" \/ type = Py.lit "assistant_message" ->
             exists output, step_output step = Some output))
    steps ->
  resume_loop steps chat_history
  = (Return tt,
     chat_history
     ++ List.map
          (fun step =>
             {| entry_role :=
                  if Py.str_eqb (default [] (step_type step)) (Py.lit "user_message")
                  then Py.lit "user" else Py.lit "assistant";
                entry_content := default [] (step_output step) |})
          (List.filter
             (fun step =>
                Py.str_eqb (default [] (step_type step)) (Py.lit "user_message")
                || Py.str_eqb (default [] (step_type step)) (Py.lit "assistant_message"))
             steps)).
Proof.
  intros H. revert chat_history.
  induction H as [|step rest (type & Htype & Houtput) _ IH]; intros chat_history.
  - cbn. rewrite app_nil_r. reflexivity.
  - cbn [resume_loop List.filter]. rewrite Htype.
    change (default [] (Some type)) with type.
    destruct (Py.str_eqb type (Py.lit "user_message")) eqn:Euser.
    + destruct (Houtput (or_introl (proj1 (str_eqb_eq _ _) Euser))) as [output Hout].
      rewrite Hout, IH. cbn [orb List.map]. rewrite Htype, Hout.
      change (default [] (Some type)) with type.
      change (default [] (Some output)) with output.
      rewrite Euser, <- app_assoc. reflexivity.
    + destruct (Py.str_eqb type (Py.lit "assistant_message")) eqn:Eassistant.
      * destruct (Houtput (or_intror (proj1 (str_eqb_eq _ _) Eassistant))) as [output Hout].
        rewrite Hout, IH. cbn [orb List.map]. rewrite Htype, Hout.
        change (default [] (Some type)) with type.
        change (default [] (Some output)) with output.
        rewrite Euser, <- app_assoc. reflexivity.
      * cbn [orb]. apply IH.
Qed.

(** X23.  Resuming a thread rebuilds the chat history from the thread
    alone: whatever the session held is discarded, and the history is, in
    the order of the steps, one entry per step of type "user_message" or
    "assistant_message", with role "user" or "assistant" and the output of
    the step as content.  Steps of any other type are skipped.  This holds
    when every step has a type and every message step an output. *)
Theorem resumed_history_is_rebuilt (steps : list thread_step)
    (session_history : list history_entry) :
  Forall
    (fun step =>
       exists type,
         step_type step = Some type
         /\ (type = Py.lit "user_message" \/ type = Py.lit "assistant_message" ->
             exists output, step_output step = Some output))
    steps ->
  resume_chats steps session_history
  = (Return tt,
     List.map
       (fun step =>
          {| entry_role :=
               if Py.str_eqb (default [] (step_type step)) (Py.lit "user_message")
               then Py.lit "user" else Py.lit "assistant";
             entry_content := default [] (step_output step) |})
       (List.filter
          (fun step =>
             Py.str_eqb (default [] (step_type step)) (Py.lit "user_message")
             || Py.str_eqb (default [] (step_type step)) (Py.lit "assistant_message"))
          steps)).
Proof.
  intros H. unfold resume_chats. rewrite resume_loop_shape by exact H. reflexivity.
Qed.

Lemma resume_loop_app (good rest : list thread_step) (chat_history : list history_entry) :
  Forall
    (fun step =>
       exists type,
         step_type step = Some type
         /\ (type = Py.lit "user_message" \/ type = Py.lit "assistant_message" ->
             exists output, step_output step = Some output))
    good ->
  resume_loop (good ++ rest) chat_history
  = resume_loop rest (snd (resume_loop good chat_history)).
Proof.
  intros H. revert chat_history.
  induction H as [|step good (type & Htype & Houtput) _ IH]; intros chat_history.
  - reflexivity.
  - cbn [app resume_loop]. rewrite Htype.
    destruct (Py.str_eqb type (Py.lit "user_message")) eqn:Euser.
    + apply str_eqb_eq in Euser. destruct (Houtput (or_introl Euser)) as [output ->].
      apply IH.
    + destruct (Py.str_eqb type (Py.lit "assistant_message")) eqn:Eassistant.
      * apply str_eqb_eq in Eassistant.
        destruct (Houtput (or_intror Eassistant)) as [output ->]. apply IH.
      * apply IH.
Qed.

(** X24.  A step that lacks its type stops the resume with a [KeyError],
    and the history is left holding the entries of the steps before it:
    the steps after it are lost, and so is what the session held. *)
Theorem step_without_type_stops_resume (good rest : list thread_step) (bad : thread_step)
    (session_history : list history_entry) :
  Forall
    (fun step =>
       exists type,
         step_type step = Some type
         /\ (type = Py.lit "user_message" \/ type = Py.lit "assistant_message" ->
             exists output, step_output step = Some output))
    good ->
  step_type bad = None ->
  resume_chats (good ++ bad :: rest) session_history
  = (Raise (Exn "KeyError" (Py.lit "'type'")), snd (resume_chats good session_history)).
Proof.
  intros Hgood Hbad. unfold resume_chats. rewrite resume_loop_app by exact Hgood.
  cbn [resume_loop]. rewrite Hbad. reflexivity.
Qed.

Lemma resumed_history_is_rebuilt_witness :
  resume_chats
    [{| step_type := Some (Py.lit "user_message"); step_output := Some (Py.lit "Hi") |};
     {| step_type := Some (Py.lit "tool"); step_output := None |};
     {| step_type := Some (Py.lit "assistant_message"); step_output := Some (Py.lit "Hello") |}]
    [{| entry_role := Py.lit "user"; entry_content := Py.lit "old" |}]
  = (Return tt,
     List.map
       (fun step =>
          {| entry_role :=
               if Py.str_eqb (default [] (step_type step)) (Py.lit "user_message")
               then Py.lit "user" else Py.lit "assistant";
             entry_content := default [] (step_output step) |})
       (List.filter
          (fun step =>
             Py.str_eqb (default [] (step_type step)) (Py.lit "user_message")
             || Py.str_eqb (default [] (step_type step)) (Py.lit "assistant_message"))
          [{| step_type := Some (Py.lit "user_message"); step_output := Some (Py.lit "Hi") |};
           {| step_type := Some (Py.lit "tool"); step_output := None |};
           {| step_type := Some (Py.lit "assistant_message");
              step_output := Some (Py.lit "Hello") |}])).
Proof.
  apply resumed_history_is_rebuilt.
  repeat constructor.
  - eexists. split; [reflexivity |]. intros _. eexists. reflexivity.
  - eexists. split; [reflexivity |]. intros [H | H]; vm_compute in H; discriminate.
  - eexists. split; [reflexivity |]. intros _. eexists. reflexivity.
Defined.

Lemma step_without_type_stops_resume_witness :
  resume_chats
    ([{| step_type := Some (Py.lit "user_message"); step_output := Some (Py.lit "Hi") |}]
     ++ {| step_type := None; step_output := Some (Py.lit "?") |}
        :: [{| step_type := Some (Py.lit "assistant_message");
               step_output := Some (Py.lit "Hello") |}])
    []
  = (Raise (Exn "KeyError" (Py.lit "'type'")),
     snd (resume_chats
            [{| step_type := Some (Py.lit "user_message"); step_output := Some (Py.lit "Hi") |}]
            [])).
Proof.
  apply step_without_type_stops_resume.
  - repeat constructor. eexists. split; [reflexivity |]. intros _. eexists. reflexivity.
  - reflexivity.
Defined.

Example resumed_history_on_sample :
  resume_chats
    [{| step_type := Some (Py.lit "user_message"); step_output := Some (Py.lit "Hi") |};
     {| step_type := Some (Py.lit "tool"); step_output := None |};
     {| step_type := Some (Py.lit "assistant_message"); step_output := Some (Py.lit "Hello") |}]
    [{| entry_role := Py.lit "user"; entry_content := Py.lit "old" |}]
  = (Return tt,
     [{| entry_role := Py.lit "user"; entry_content := Py.lit "Hi" |};
      {| entry_role := Py.lit "assistant"; entry_content := Py.lit "Hello" |}]).
Proof. vm_compute. reflexivity. Qed.

(** ** MCP tools *)

Section McpProperties.

Variables Schema Args Result : Type.

Lemma find_connection_none (tool_name : list N)
    (items : list (list N * list (tool_entry Schema))) :
  Forall (fun item => exposes tool_name (snd item) = false) items ->
  find_connection tool_name items = None.
Proof.
  induction 1 as [|[name tools] rest Htools _ IH]; [reflexivity |].
  cbn [find_connection]. cbn [snd] in Htools. rewrite Htools. exact IH.
Qed.

Lemma find_connection_first (tool_name name : list N) (tools : list (tool_entry Schema))
    (before after : list (list N * list (tool_entry Schema))) :
  Forall (fun item => exposes tool_name (snd item) = false) before ->
  exposes tool_name tools = true ->
  find_connection tool_name (before ++ (name, tools) :: after) = Some name.
Proof.
  intros Hbefore Htools. induction Hbefore as [|[name' tools'] rest Hfirst _ IH].
  - cbn [app find_connection]. rewrite Htools. reflexivity.
  - cbn [app find_connection]. cbn [snd] in Hfirst. rewrite Hfirst. exact IH.
Qed.

Lemma find_connection_registered (tool_name name : list N) (tools : list (tool_entry Schema))
    (items : list (list N * list (tool_entry Schema))) :
  Forall (fun item => fst item = name \/ exposes tool_name (snd item) = false) items ->
  exposes tool_name tools = true ->
  find_connection tool_name (dict_set items name tools) = Some name.
Proof.
  intros Hitems Htools. induction Hitems as [|[name' tools'] rest Hfirst _ IH].
  - cbn [dict_set find_connection]. rewrite Htools. reflexivity.
  - cbn [dict_set]. destruct (Py.str_eqb name' name) eqn:E.
    + apply str_eqb_eq in E. subst name'. cbn [find_connection]. rewrite Htools. reflexivity.
    + cbn [find_connection]. cbn [fst snd] in Hfirst. destruct Hfirst as [-> | Hfirst].
      * rewrite (proj2 (str_eqb_eq name name) eq_refl) in E. discriminate.
      * rewrite Hfirst. exact IH.
Qed.

Lemma exposes_listed (t : listed_tool Schema) (listed : list (listed_tool Schema)) :
  In t listed ->
  exposes (listed_name t)
    (List.map
       (fun t => {| fn_name := listed_name t;
                    fn_description := listed_description t;
                    fn_parameters := listed_inputSchema t |})
       listed)
  = true.
Proof.
  intros Hin. unfold exposes. apply existsb_exists.
  eexists. split; [apply in_map; exact Hin |]. cbn [fn_name]. apply str_eqb_eq. reflexivity.
Qed.

(** X25.  A tool that no connection of the session exposes is answered
    with the JSON text [{"error": "Tool NAME not found in any MCP
    connection"}], whatever sessions are open; so is every tool when the
    session has no "mcp_tools" entry. *)
Theorem unknown_tool_is_reported
    (mcp_tools : option (list (list N * list (tool_entry Schema))))
    (mcp_sessions : list (list N * (list N -> Args -> outcome Result)))
    (tool_name : list N) (tool_args : Args) :
  Forall (fun item => exposes tool_name (snd item) = false) (default [] mcp_tools) ->
  call_tool mcp_tools mcp_sessions tool_name tool_args
  = Text ([123; 34]%N ++ Py.lit "error" ++ [34; 58; 32; 34]%N
          ++ Json.escape
               (Py.lit "Tool " ++ tool_name ++ Py.lit " not found in any MCP connection")
          ++ [34; 125]%N).
Proof.
  intros H. unfold call_tool. rewrite find_connection_none by exact H. reflexivity.
Qed.

(** X26.  A call goes to the first connection, in the order in which the
    connections were registered, that exposes a tool of that name, and to
    no other.  If that connection has an open session the outcome is the
    session's: its result, or the text of its exception as a JSON error.
    If it has none the answer is the JSON error "MCP session NAME not
    available", even when a later connection exposes the tool and is open. *)
Theorem tool_call_goes_to_first_connection
    (before after : list (list N * list (tool_entry Schema)))
    (name : list N) (tools : list (tool_entry Schema))
    (mcp_sessions : list (list N * (list N -> Args -> outcome Result)))
    (tool_name : list N) (tool_args : Args) :
  Forall (fun item => exposes tool_name (snd item) = false) before ->
  exposes tool_name tools = true ->
  name <> [] ->
  call_tool (Some (before ++ (name, tools) :: after)) mcp_sessions tool_name tool_args
  = match dict_get mcp_sessions name with
    | Some mcp_session =>
      match mcp_session tool_name tool_args with
      | Return result => ToolResult result
      | Raise e => Text (Json.error_object (exn_str e))
      end
    | None =>
      Text (Json.error_object (Py.lit "MCP session " ++ name ++ Py.lit " not available"))
    end.
Proof.
  intros Hbefore Htools Hname. unfold call_tool.
  change (default [] (Some (before ++ (name, tools) :: after)))
    with (before ++ (name, tools) :: after).
  rewrite find_connection_first by assumption.
  destruct name; [contradiction | reflexivity].
Qed.

(** X27.  A tool registered by [on_mcp] is routed to the connection it was
    registered under, provided no other connection exposes a tool of that
    name; registering a connection again replaces its tools.  A connection
    whose name is empty cannot be called: its tools are answered with the
    "not found" error. *)
Theorem registered_tool_is_routed
    (connection_name : list N) (listed : list (listed_tool Schema))
    (mcp_tools : option (list (list N * list (tool_entry Schema))))
    (mcp_sessions : list (list N * (list N -> Args -> outcome Result)))
    (t : listed_tool Schema) (tool_args : Args) :
  In t listed ->
  Forall (fun item => fst item = connection_name \/ exposes (listed_name t) (snd item) = false)
    (default [] mcp_tools) ->
  call_tool (snd (on_mcp connection_name (Return listed) mcp_tools)) mcp_sessions
    (listed_name t) tool_args
  = if Py.py_not connection_name then
      Text (Json.error_object
              (Py.lit "Tool " ++ listed_name t ++ Py.lit " not found in any MCP connection"))
    else
      match dict_get mcp_sessions connection_name with
      | Some mcp_session =>
        match mcp_session (listed_name t) tool_args with
        | Return result => ToolResult result
        | Raise e => Text (Json.error_object (exn_str e))
        end
      | None =>
        Text (Json.error_object
                (Py.lit "MCP session " ++ connection_name ++ Py.lit " not available"))
      end.
Proof.
  intros Hin Hothers. unfold call_tool, on_mcp. cbn [snd].
  match goal with
  | |- context [default [] (Some ?d)] => change (default [] (Some d)) with d
  end.
  rewrite find_connection_registered; [reflexivity | exact Hothers |].
  apply exposes_listed. exact Hin.
Qed.

End McpProperties.

Lemma unknown_tool_is_reported_witness :
  call_tool (Schema := unit) (Args := unit) (Result := nat)
    (Some [(Py.lit "files", [{| fn_name := Py.lit "read"; fn_description := None;
                                fn_parameters := tt |}])])
    [(Py.lit "files", fun _ _ => Return 7%nat)] (Py.lit "write") tt
  = Text ([123; 34]%N ++ Py.lit "error" ++ [34; 58; 32; 34]%N
          ++ Json.escape
               (Py.lit "Tool " ++ Py.lit "write" ++ Py.lit " not found in any MCP connection")
          ++ [34; 125]%N).
Proof.
  apply unknown_tool_is_reported.
  constructor; [vm_compute; reflexivity | constructor].
Defined.

Lemma tool_call_goes_to_first_connection_witness :
  call_tool (Schema := unit) (Args := unit) (Result := nat)
    (Some ([(Py.lit "files", [{| fn_name := Py.lit "read"; fn_description := None;
                                 fn_parameters := tt |}])]
           ++ (Py.lit "web", [{| fn_name := Py.lit "search"; fn_description := None;
                                 fn_parameters := tt |}])
              :: [(Py.lit "mirror", [{| fn_name := Py.lit "search"; fn_description := None;
                                        fn_parameters := tt |}])]))
    [(Py.lit "mirror", fun _ _ => Return 7%nat)] (Py.lit "search") tt
  = match dict_get [(Py.lit "mirror", fun (_ : list N) (_ : unit) => Return 7%nat)]
            (Py.lit "web") with
    | Some mcp_session =>
      match mcp_session (Py.lit "search") tt with
      | Return result => ToolResult result
      | Raise e => Text (Json.error_object (exn_str e))
      end
    | None =>
      Text (Json.error_object
              (Py.lit "MCP session " ++ Py.lit "web" ++ Py.lit " not available"))
    end.
Proof.
  apply tool_call_goes_to_first_connection.
  - constructor; [vm_compute; reflexivity | constructor].
  - vm_compute. reflexivity.
  - vm_compute. discriminate.
Defined.

Lemma registered_tool_is_routed_witness :
  call_tool (Schema := unit) (Args := unit) (Result := nat)
    (snd (on_mcp (Py.lit "web")
            (Return [{| listed_name := Py.lit "search"; listed_description := None;
                        listed_inputSchema := tt |}])
            None))
    [(Py.lit "web", fun _ _ => Return 7%nat)]
    (listed_name {| listed_name := Py.lit "search"; listed_description := None;
                    listed_inputSchema := tt |})
    tt
  = if Py.py_not (Py.lit "web") then
      Text (Json.error_object
              (Py.lit "Tool " ++ Py.lit "search" ++ Py.lit " not found in any MCP connection"))
    else
      match dict_get [(Py.lit "web", fun (_ : list N) (_ : unit) => Return 7%nat)]
              (Py.lit "web") with
      | Some mcp_session =>
        match mcp_session (Py.lit "search") tt with
        | Return result => ToolResult result
        | Raise e => Text (Json.error_object (exn_str e))
        end
      | None =>
        Text (Json.error_object
                (Py.lit "MCP session " ++ Py.lit "web" ++ Py.lit " not available"))
      end.
Proof.
  apply (registered_tool_is_routed unit unit nat (Py.lit "web")
           [{| listed_name := Py.lit "search"; listed_description := None;
               listed_inputSchema := tt |}]
           None [(Py.lit "web", fun _ _ => Return 7%nat)]
           {| listed_name := Py.lit "search"; listed_description := None;
              listed_inputSchema := tt |} tt).
  - left. reflexivity.
  - constructor.
Defined.

(** What the caller sees in the three cases. *)
Example tool_calls_on_sample :
  call_tool (Schema := unit) (Args := unit) (Result := nat)
    (snd (on_mcp (Py.lit "web")
            (Return [{| listed_name := Py.lit "search"; listed_description := None;
                        listed_inputSchema := tt |}])
            None))
    [(Py.lit "web", fun _ _ => Return 7%nat)] (Py.lit "search") tt
  = ToolResult 7%nat
  /\ call_tool (Schema := unit) (Args := unit) (Result := nat)
       (snd (on_mcp []
               (Return [{| listed_name := Py.lit "search"; listed_description := None;
                           listed_inputSchema := tt |}])
               None))
       [([], fun _ _ => Return 7%nat)] (Py.lit "search") tt
     = Text ([123; 34]%N ++ Py.lit "error" ++ [34; 58; 32; 34]%N
             ++ Py.lit "Tool search not found in any MCP connection" ++ [34; 125]%N).
Proof. split; vm_compute; reflexivity. Qed.

(** * Repeatability of degraded output *)

(** X28.  With the service failing on every call, what the pipeline gives
    for a PDF, DOCX or text file does not depend on the calls made before:
    processing the same file again gives the same result, the same fallback
    text included. *)
Theorem degraded_output_is_repeatable `{rt : Runtime} (ollama : service)
    (config : ProcessingConfig) (filename : list N) (file_bytes : list byte)
    (file_mime : list N) (tr1 tr2 : trace) :
  (forall n req, exists e, ollama n req = ChatFailure e) ->
  file_processor_map !! str_lower (Path_suffix filename) <> Some image_processor ->
  fst (process_document_async ollama config filename file_bytes file_mime tr1)
  = fst (process_document_async ollama config filename file_bytes file_mime tr2).
Proof.
  intros Hdown Hp.
  assert (Hadapter : forall text doc_type,
             fst (_clean_and_summarize_text ollama config text doc_type tr1)
             = fst (_clean_and_summarize_text ollama config text doc_type tr2)).
  { intros text doc_type. destruct (strip_cases text) as [H | H].
    - rewrite !summarize_blank by exact H. reflexivity.
    - rewrite !summarize_call by exact H. cbn [fst].
      destruct (Hdown (length tr1) (summary_request config text doc_type)) as [e1 ->].
      destruct (Hdown (length tr2) (summary_request config text doc_type)) as [e2 ->].
      reflexivity. }
  rewrite !process_document_async_steps.
  destruct (Py.py_not filename || Py.py_not file_bytes); [reflexivity |].
  destruct (_validate_file config filename file_bytes file_mime) as [info | e] eqn:E;
    [| reflexivity].
  apply validate_returns_extension in E. destruct E as (_ & ->).
  cbn [info_extension] in *.
  destruct (file_processor_map !! str_lower (Path_suffix filename)) as [[| | |] |];
    cbn [run_processor]; try reflexivity; try contradiction.
  - rewrite !extract_pdf_cases. destruct (fitz_page_texts file_bytes); [apply Hadapter | reflexivity].
  - rewrite !extract_docx_cases. destruct (docx_Document file_bytes); [apply Hadapter | reflexivity].
  - rewrite !extract_txt_returns. apply Hadapter.
Qed.

Lemma degraded_output_is_repeatable_witness :
  fst (process_document_async (rt := Sample.runtime) Sample.down Sample.config
         (Py.lit "a.txt") (Py.blit "hello") (Py.lit "text/plain") [])
  = fst (process_document_async (rt := Sample.runtime) Sample.down Sample.config
           (Py.lit "a.txt") (Py.blit "hello") (Py.lit "text/plain")
           [(summary_request Sample.config (Py.lit "hello") (Py.lit "TXT"),
             ChatFailure Sample.refused)]).
Proof.
  apply (degraded_output_is_repeatable (rt := Sample.runtime) Sample.down Sample.config).
  - intros n req. exists Sample.refused. reflexivity.
  - vm_compute. discriminate.
Defined.
